(** * BerlinUhr: time keeping, EU daylight-saving rule, nightly resync
      scheduling and the session state machine of [BerlinUhr.ino].

    The firmware is embedded shallowly.  Its globals become the fields of
    one record [State]; every function of the sketch that touches them is a
    function on [State].  Values the sketch obtains from the platform
    ([millis()], [time(nullptr)], [WiFi.status()], [analogRead]) are explicit
    arguments, one per read, so that two reads inside one pass may differ.

    Integer types.  [unsigned long] is 32 bits wide on the ESP8266 and its
    arithmetic wraps: it is a [Z] in [0, 2^32) with the reduction written
    out ([ulong_sub]).  [time_t] and [int] are signed; C leaves signed
    overflow undefined, so their arithmetic is exact arithmetic on [Z] and
    the statements are about runs in which no signed overflow happens.

    C library.  [gmtime] and [mktime] are not part of the sketch.  They are
    modelled by the proleptic Gregorian calendar in the days-from-civil form
    (eras of 400 years, 146097 days, starting on 1 March of year 0).  [gmtime]
    answers [None] (the null pointer the sketch tests for) exactly when the
    year does not fit the [int] field [tm_year].  [mktime] works in the zone
    the sketch configures with [configTime(0, 0, ...)], that is UTC. *)

From Stdlib Require Import ZArith Bool List Lia.
Import ListNotations.
Local Open Scope Z_scope.

(* ------------------------------------------------------------------ *)
(** ** Machine integers *)

Definition ULONG_MOD : Z := 2 ^ 32.
Definition INT_MIN : Z := - 2 ^ 31.
Definition INT_MAX : Z := 2 ^ 31 - 1.

(** [a - b] on [unsigned long]. *)
Definition ulong_sub (a b : Z) : Z := (a - b) mod ULONG_MOD.

(** An [unsigned long] value. *)
Definition is_ulong (a : Z) : Prop := 0 <= a < ULONG_MOD.

(** Conversion to [uint8_t]. *)
Definition to_uint8 (a : Z) : Z := a mod 256.

(* ------------------------------------------------------------------ *)
(** ** Calendar of the C library *)

Definition SECSPERDAY : Z := 86400.
Definition DAYS_PER_ERA : Z := 146097.
Definition EPOCH_ADJUSTMENT_DAYS : Z := 719468.

(** [struct tm], the fields the sketch reads or writes. *)
Record tm : Type := mkTm {
  tm_sec : Z;
  tm_min : Z;
  tm_hour : Z;
  tm_mday : Z;
  tm_mon : Z;    (* 0 .. 11 *)
  tm_year : Z;   (* years since 1900 *)
  tm_wday : Z    (* 0 = Sunday .. 6 = Saturday *)
}.

(** Day of the era (0 .. 146096, day 0 is 1 March) to
    (year of the era counted from January, month 1..12, day 1..31). *)
Definition civil_of_doe (doe : Z) : Z * Z * Z :=
  let yoe := (doe - doe / 1460 + doe / 36524 - doe / 146096) / 365 in
  let doy := doe - (365 * yoe + yoe / 4 - yoe / 100) in
  let mp := (5 * doy + 2) / 153 in
  let d := doy - (153 * mp + 2) / 5 + 1 in
  let m := if mp <? 10 then mp + 3 else mp - 9 in
  (if m <=? 2 then yoe + 1 else yoe, m, d).

(** Days since 1970-01-01 to (year, month, day). *)
Definition civil_from_days (z : Z) : Z * Z * Z :=
  let n := z + EPOCH_ADJUSTMENT_DAYS in
  let '(y, m, d) := civil_of_doe (n mod DAYS_PER_ERA) in
  (y + 400 * (n / DAYS_PER_ERA), m, d).

(** Day of the era of day [d] of month [m] in year-of-era [yoe]
    (years run from March). *)
Definition doe_of_civil (yoe m d : Z) : Z :=
  let mp := (m + 9) mod 12 in
  let doy := (153 * mp + 2) / 5 + d - 1 in
  yoe * 365 + yoe / 4 - yoe / 100 + doy.

(** (year, month 1..12, day) to days since 1970-01-01. *)
Definition days_from_civil (y m d : Z) : Z :=
  let y' := if m <=? 2 then y - 1 else y in
  DAYS_PER_ERA * (y' / 400) + doe_of_civil (y' mod 400) m d
  - EPOCH_ADJUSTMENT_DAYS.

(** Weekday of a day number; 1970-01-01 was a Thursday. *)
Definition weekday (z : Z) : Z := (z + 4) mod 7.

(** The broken-down form of [t], with fields of unbounded size. *)
Definition tm_of_time (t : Z) : tm :=
  let days := t / SECSPERDAY in
  let rem := t mod SECSPERDAY in
  let '(y, m, d) := civil_from_days days in
  {| tm_sec := rem mod 60;
     tm_min := (rem mod 3600) / 60;
     tm_hour := rem / 3600;
     tm_mday := d;
     tm_mon := m - 1;
     tm_year := y - 1900;
     tm_wday := weekday days |}.

(** [gmtime(&t)]: null when the year cannot be stored in [tm_year]. *)
Definition gmtime (t : Z) : option tm :=
  let r := tm_of_time t in
  if (INT_MIN <=? tm_year r) && (tm_year r <=? INT_MAX) then Some r else None.

(** [timegm]: seconds since the epoch of a broken-down UTC time whose
    month may lie outside 0..11 and whose other fields may overflow. *)
Definition time_of_tm (t : tm) : Z :=
  let y := tm_year t + 1900 + tm_mon t / 12 in
  let m := tm_mon t mod 12 + 1 in
  (days_from_civil y m 1 + (tm_mday t - 1)) * SECSPERDAY
  + tm_hour t * 3600 + tm_min t * 60 + tm_sec t.

(** [mktime(&t)] in the UTC zone: the epoch value and the normalised
    structure; on failure [-1] and the structure as it was. *)
Definition mktime (t : tm) : Z * tm :=
  let secs := time_of_tm t in
  match gmtime secs with
  | Some t' => (secs, t')
  | None => (-1, t)
  end.

(* ------------------------------------------------------------------ *)
(** ** Globals of the sketch *)

Inductive ClockState_t : Type :=
| STATE_WIFI_CONFIG
| STATE_WAIT_FOR_TIME
| STATE_SHOW_CLOCK.

Definition ntpSyncHour : Z := 3.
Definition ntpSyncMinute : Z := 5.
Definition ntpWaitTimeoutMs : Z := 20000.
Definition wifiLostTimeoutMs : Z := 60000.
Definition renderIntervalMs : Z := 20.
Definition brightnessIntervalMs : Z := 1000.
Definition minBrightness : Z := 5.
Definition maxBrightness : Z := 200.

(** 2016-01-01T00:00:00Z, the literal of [isTimeValid] and
    [syncRtcFromSystemTime]. *)
Definition TIME_FLOOR : Z := 1451606400.

Record State : Type := mkState {
  myState : ClockState_t;
  rtcBaseTime : Z;            (* time_t *)
  rtcBaseMillis : Z;          (* unsigned long *)
  nextNtpSyncEpoch : Z;       (* time_t *)
  ntpSyncInProgress : bool;
  ntpSyncStartMs : Z;         (* unsigned long *)
  wifiLostSinceMs : Z;        (* unsigned long *)
  t_sec : Z;
  t_min : Z;
  t_hour : Z;
  lastRenderMillis : Z;       (* unsigned long *)
  lastBrightnessMillis : Z;   (* unsigned long *)
  currentBrightness : Z       (* uint8_t *)
}.

(** The initialisers of the globals. *)
Definition initial_state : State :=
  {| myState := STATE_WIFI_CONFIG;
     rtcBaseTime := 0;
     rtcBaseMillis := 0;
     nextNtpSyncEpoch := 0;
     ntpSyncInProgress := false;
     ntpSyncStartMs := 0;
     wifiLostSinceMs := 0;
     t_sec := 0;
     t_min := 0;
     t_hour := 0;
     lastRenderMillis := 0;
     lastBrightnessMillis := 0;
     currentBrightness := 50 |}.

Definition set_myState (v : ClockState_t) (s : State) : State :=
  mkState v (rtcBaseTime s) (rtcBaseMillis s) (nextNtpSyncEpoch s)
    (ntpSyncInProgress s) (ntpSyncStartMs s) (wifiLostSinceMs s)
    (t_sec s) (t_min s) (t_hour s) (lastRenderMillis s)
    (lastBrightnessMillis s) (currentBrightness s).

Definition set_rtcBase (base ms : Z) (s : State) : State :=
  mkState (myState s) base ms (nextNtpSyncEpoch s)
    (ntpSyncInProgress s) (ntpSyncStartMs s) (wifiLostSinceMs s)
    (t_sec s) (t_min s) (t_hour s) (lastRenderMillis s)
    (lastBrightnessMillis s) (currentBrightness s).

Definition set_nextNtpSyncEpoch (v : Z) (s : State) : State :=
  mkState (myState s) (rtcBaseTime s) (rtcBaseMillis s) v
    (ntpSyncInProgress s) (ntpSyncStartMs s) (wifiLostSinceMs s)
    (t_sec s) (t_min s) (t_hour s) (lastRenderMillis s)
    (lastBrightnessMillis s) (currentBrightness s).

Definition set_ntpSync (inProgress : bool) (startMs : Z) (s : State) : State :=
  mkState (myState s) (rtcBaseTime s) (rtcBaseMillis s) (nextNtpSyncEpoch s)
    inProgress startMs (wifiLostSinceMs s)
    (t_sec s) (t_min s) (t_hour s) (lastRenderMillis s)
    (lastBrightnessMillis s) (currentBrightness s).

Definition set_ntpSyncInProgress (v : bool) (s : State) : State :=
  set_ntpSync v (ntpSyncStartMs s) s.

Definition set_wifiLostSinceMs (v : Z) (s : State) : State :=
  mkState (myState s) (rtcBaseTime s) (rtcBaseMillis s) (nextNtpSyncEpoch s)
    (ntpSyncInProgress s) (ntpSyncStartMs s) v
    (t_sec s) (t_min s) (t_hour s) (lastRenderMillis s)
    (lastBrightnessMillis s) (currentBrightness s).

Definition set_t_hms (h m sec : Z) (s : State) : State :=
  mkState (myState s) (rtcBaseTime s) (rtcBaseMillis s) (nextNtpSyncEpoch s)
    (ntpSyncInProgress s) (ntpSyncStartMs s) (wifiLostSinceMs s)
    sec m h (lastRenderMillis s)
    (lastBrightnessMillis s) (currentBrightness s).

Definition set_lastRenderMillis (v : Z) (s : State) : State :=
  mkState (myState s) (rtcBaseTime s) (rtcBaseMillis s) (nextNtpSyncEpoch s)
    (ntpSyncInProgress s) (ntpSyncStartMs s) (wifiLostSinceMs s)
    (t_sec s) (t_min s) (t_hour s) v
    (lastBrightnessMillis s) (currentBrightness s).

Definition set_lastBrightnessMillis (v : Z) (s : State) : State :=
  mkState (myState s) (rtcBaseTime s) (rtcBaseMillis s) (nextNtpSyncEpoch s)
    (ntpSyncInProgress s) (ntpSyncStartMs s) (wifiLostSinceMs s)
    (t_sec s) (t_min s) (t_hour s) (lastRenderMillis s)
    v (currentBrightness s).

Definition set_currentBrightness (v : Z) (s : State) : State :=
  mkState (myState s) (rtcBaseTime s) (rtcBaseMillis s) (nextNtpSyncEpoch s)
    (ntpSyncInProgress s) (ntpSyncStartMs s) (wifiLostSinceMs s)
    (t_sec s) (t_min s) (t_hour s) (lastRenderMillis s)
    (lastBrightnessMillis s) v.

(* ------------------------------------------------------------------ *)
(** ** Time validity and the internal clock *)

(** [isTimeValid()], [now] being what [time(nullptr)] returns. *)
Definition isTimeValid (now : Z) : bool :=
  if now <? TIME_FLOOR then false else true.

(** [getCurrentRtcTime()]; [sysTime] is [time(nullptr)], [ms] is
    [millis()]. *)
Definition getCurrentRtcTime (sysTime ms : Z) (s : State) : Z :=
  if rtcBaseTime s =? 0 then sysTime
  else
    let elapsedMs := ulong_sub ms (rtcBaseMillis s) in
    rtcBaseTime s + elapsedMs / 1000.

(* ------------------------------------------------------------------ *)
(** ** Calendar math of the sketch *)

Definition lastSunday (year month : Z) : Z :=
  let t := {| tm_sec := 0; tm_min := 0; tm_hour := 12; tm_mday := 31;
              tm_mon := month - 1; tm_year := year - 1900; tm_wday := 0 |} in
  let '(_, t') := mktime t in
  31 - tm_wday t'.

Definition isDstEurope (utc : Z) : bool :=
  match gmtime utc with
  | None => false
  | Some t =>
      let year := tm_year t + 1900 in
      let month := tm_mon t + 1 in
      let day := tm_mday t in
      let hour := tm_hour t in
      if (month <? 3) || (month >? 10) then false
      else if (month >? 3) && (month <? 10) then true
      else if month =? 3 then
        let ls := lastSunday year 3 in
        if day >? ls then true
        else if day <? ls then false
        else hour >=? 1
      else if month =? 10 then
        let ls := lastSunday year 10 in
        if day <? ls then true
        else if day >? ls then false
        else hour <? 1
      else false
  end.

Definition getUtcOffsetSeconds (utc : Z) : Z :=
  if isDstEurope utc then 7200 else 3600.

Definition getDisplayTime (utc : Z) : Z :=
  utc + getUtcOffsetSeconds utc.

(* ------------------------------------------------------------------ *)
(** ** Resync scheduler *)

Definition maxMinutes : Z := 48 * 60.

(** The test of the scan loop on one candidate. *)
Definition candidate_matches (candidateUtc : Z) : bool :=
  match gmtime (getDisplayTime candidateUtc) with
  | None => false
  | Some d =>
      (tm_hour d =? ntpSyncHour) && (tm_min d =? ntpSyncMinute)
      && (tm_sec d =? 0)
  end.

(** The [for] loop of [scheduleNextNightlySync]: [n] iterations are left,
    [i] is the loop counter.  [Some c] is the early [return] with
    [nextNtpSyncEpoch = c]; [None] is falling out of the loop. *)
Fixpoint nightly_scan (n : nat) (i : Z) (startUtc : Z) : option Z :=
  match n with
  | O => None
  | S n' =>
      let candidateUtc := startUtc + i * 60 in
      if candidate_matches candidateUtc then Some candidateUtc
      else nightly_scan n' (i + 1) startUtc
  end.

(** [startUtc - (startUtc % 60) + 60]; [%] of C truncates. *)
Definition next_full_minute (currentUtc : Z) : Z :=
  currentUtc - Z.rem currentUtc 60 + 60.

Definition scheduleNextNightlySync (currentUtc : Z) (s : State) : State :=
  let startUtc := next_full_minute currentUtc in
  match nightly_scan (Z.to_nat maxMinutes) 0 startUtc with
  | Some candidateUtc => set_nextNtpSyncEpoch candidateUtc s
  | None => set_nextNtpSyncEpoch (currentUtc + 24 * 3600) s
  end.

Definition shouldStartNightlySync (currentUtc : Z) (s : State) : bool * State :=
  if nextNtpSyncEpoch s =? 0 then
    (false, scheduleNextNightlySync currentUtc s)
  else if currentUtc <? nextNtpSyncEpoch s then
    (false, s)
  else
    (true, scheduleNextNightlySync currentUtc s).

(** [syncRtcFromSystemTime()]; [now] is [time(nullptr)], [ms] is
    [millis()]. *)
Definition syncRtcFromSystemTime (now ms : Z) (s : State) : bool * State :=
  if now <? TIME_FLOOR then (false, s)
  else (true, scheduleNextNightlySync now (set_rtcBase now ms s)).

(** [updateTimeFromRtc()]. *)
Definition updateTimeFromRtc (sysTime ms : Z) (s : State) : State :=
  let nowUtc := getCurrentRtcTime sysTime ms s in
  let nowDisp := getDisplayTime nowUtc in
  match gmtime nowDisp with
  | None => s
  | Some ti => set_t_hms (tm_hour ti) (tm_min ti) (tm_sec ti) s
  end.

(* ------------------------------------------------------------------ *)
(** ** Connectivity supervisor, brightness, main loop *)

(** [superviseWiFi(nowMs)]; [connected] is
    [WiFi.status() == WL_CONNECTED].  The call [WiFi.reconnect()] returns
    nothing the sketch uses and touches no global. *)
Definition superviseWiFi (nowMs : Z) (connected : bool) (s : State) : State :=
  if negb connected then
    let s1 := if wifiLostSinceMs s =? 0 then set_wifiLostSinceMs nowMs s
              else s in
    if ulong_sub nowMs (wifiLostSinceMs s1) >? wifiLostTimeoutMs then
      set_myState STATE_WIFI_CONFIG (set_wifiLostSinceMs 0 s1)
    else s1
  else set_wifiLostSinceMs 0 s.

(** Arduino's [map], on [long], division truncating. *)
Definition arduino_map (x in_min in_max out_min out_max : Z) : Z :=
  Z.quot ((x - in_min) * (out_max - out_min)) (in_max - in_min) + out_min.

Definition updateBrightnessFromLdr (raw : Z) (s : State) : State :=
  let mapped := arduino_map raw 0 1023 minBrightness maxBrightness in
  let mapped := if mapped <? minBrightness then minBrightness else mapped in
  let mapped := if mapped >? maxBrightness then maxBrightness else mapped in
  set_currentBrightness (to_uint8 mapped) s.

(** What one pass of [loop()] reads from the platform, one field per read.
    A field is used only on the path that performs the read. *)
Record LoopInputs : Type := mkLoopInputs {
  in_nowMs : Z;         (* millis() at the top of loop() *)
  in_ldr : Z;           (* analogRead(LDR_PIN) *)
  in_millis2 : Z;       (* the millis() of the state's own branch: the
                           timeout test, or the ntpSyncStartMs assignment *)
  in_timeValid : Z;     (* time(nullptr) inside isTimeValid *)
  in_timeSync : Z;      (* time(nullptr) inside syncRtcFromSystemTime *)
  in_millisSync : Z;    (* millis() inside syncRtcFromSystemTime *)
  in_timeRtc1 : Z;      (* reads of getCurrentRtcTime via updateTimeFromRtc *)
  in_millisRtc1 : Z;
  in_timeRtc2 : Z;      (* reads of the direct getCurrentRtcTime call *)
  in_millisRtc2 : Z;
  in_wifiSync : bool;   (* WiFi.status() == WL_CONNECTED when a sync is due;
                           it only decides whether WiFi.begin() is called *)
  in_wifiSup : bool     (* WiFi.status() == WL_CONNECTED in superviseWiFi *)
}.

(** The brightness block at the top of [loop()]. *)
Definition brightness_tick (nowMs ldr : Z) (s : State) : State :=
  if ulong_sub nowMs (lastBrightnessMillis s) >=? brightnessIntervalMs
  then updateBrightnessFromLdr ldr (set_lastBrightnessMillis nowMs s)
  else s.

(** The timeout test of [STATE_WAIT_FOR_TIME]; [ms] is [millis()]. *)
Definition wait_timed_out (ms : Z) (s : State) : bool :=
  ntpSyncInProgress s
  && (ulong_sub ms (ntpSyncStartMs s) >? ntpWaitTimeoutMs).

(** One pass of [loop()].  Serial output, the LED strip ([showStaticRainbow],
    [renderBerlinClock]) and the fire-and-forget calls [startNtp],
    [WiFi.begin], [WiFi.reconnect] touch no global and are left out;
    [setupWifi] blocks until the network manager returns and is taken to
    return. The [default] arm of the [switch] has no value of
    [ClockState_t] to run on. *)
Definition loop (i : LoopInputs) (s : State) : State :=
  let nowMs := in_nowMs i in
  let s := brightness_tick nowMs (in_ldr i) s in
  match myState s with
  | STATE_WIFI_CONFIG =>
      set_myState STATE_WAIT_FOR_TIME (set_ntpSync true (in_millis2 i) s)
  | STATE_WAIT_FOR_TIME =>
      if wait_timed_out (in_millis2 i) s
      then set_myState STATE_WIFI_CONFIG (set_ntpSyncInProgress false s)
      else if isTimeValid (in_timeValid i) then
        match syncRtcFromSystemTime (in_timeSync i) (in_millisSync i) s with
        | (false, s1) =>
            set_myState STATE_WIFI_CONFIG (set_ntpSyncInProgress false s1)
        | (true, s1) =>
            superviseWiFi nowMs (in_wifiSup i)
              (set_myState STATE_SHOW_CLOCK (set_ntpSyncInProgress false s1))
        end
      else superviseWiFi nowMs (in_wifiSup i) s
  | STATE_SHOW_CLOCK =>
      let s1 :=
        if ulong_sub nowMs (lastRenderMillis s) >=? renderIntervalMs
        then updateTimeFromRtc (in_timeRtc1 i) (in_millisRtc1 i)
               (set_lastRenderMillis nowMs s)
        else s in
      let currentUtc := getCurrentRtcTime (in_timeRtc2 i) (in_millisRtc2 i) s1 in
      let '(due, s2) := shouldStartNightlySync currentUtc s1 in
      let s3 :=
        if due
        then set_myState STATE_WAIT_FOR_TIME (set_ntpSync true (in_millis2 i) s2)
        else s2 in
      superviseWiFi nowMs (in_wifiSup i) s3
  end.

(* ------------------------------------------------------------------ *)
(** ** Reference definitions for the daylight-saving rule

    Written from the rule itself, not from the sketch: the last Sunday of a
    month is found by walking back from the month's last day. *)

Definition is_leap (y : Z) : bool :=
  (y mod 4 =? 0) && (negb (y mod 100 =? 0) || (y mod 400 =? 0)).

Definition days_in_month (y m : Z) : Z :=
  if m =? 2 then (if is_leap y then 29 else 28)
  else if (m =? 4) || (m =? 6) || (m =? 9) || (m =? 11) then 30
  else 31.

(** Walk back at most [n] days from day [d] to a Sunday. *)
Fixpoint sunday_on_or_before (n : nat) (y m d : Z) : Z :=
  match n with
  | O => d
  | S n' =>
      if weekday (days_from_civil y m d) =? 0 then d
      else sunday_on_or_before n' y m (d - 1)
  end.

Definition last_sunday_of (y m : Z) : Z :=
  sunday_on_or_before 6 y m (days_in_month y m).

(** Epoch seconds of a civil UTC date and time of day. *)
Definition utc_of_civil (y m d hh mm ss : Z) : Z :=
  days_from_civil y m d * SECSPERDAY + hh * 3600 + mm * 60 + ss.

(** 01:00:00 UTC on the last Sunday of March, resp. October, of year [y]. *)
Definition dst_start (y : Z) : Z := utc_of_civil y 3 (last_sunday_of y 3) 1 0 0.
Definition dst_end (y : Z) : Z := utc_of_civil y 10 (last_sunday_of y 10) 1 0 0.

(* ------------------------------------------------------------------ *)
(** ** Auxiliary definitions for the statements *)

(** What [lastSunday] computes in a month of 31 days. *)
Definition sunday_from_31 (y m : Z) : Z :=
  31 - weekday (days_from_civil y m 31).

(** Instants below this bound, and the three days after them, have a year
    that fits [tm_year]. *)
Definition CALENDAR_MAX : Z := 2 ^ 55.

(** The display time of [c] reads [ntpSyncHour]:[ntpSyncMinute]:00. *)
Definition display_is_sync_time (c : Z) : Prop :=
  exists d, gmtime (getDisplayTime c) = Some d
            /\ tm_hour d = ntpSyncHour /\ tm_min d = ntpSyncMinute
            /\ tm_sec d = 0.

(* ------------------------------------------------------------------ *)
(** ** LED colours and rendering

    The colour table [colorDefines] and the pixel buffer of the strip are
    not fields of [State]; the functions below take and return them.  Of
    the NeoPixel driver only what the sketch hands over is kept: one
    colour per LED and the brightness.  [setPixelColor] ignores an index
    outside the strip, as the driver does.  The seconds lamp gets its level
    from a cosine evaluated in floating point; that value, converted to
    [uint8_t], is the argument [levelLin]. *)

Definition LED_COUNT : Z := 24.
Definition SECOND_LED : Z := 23.

Definition RGB : Type := (Z * Z * Z)%type.

Definition BLACK : RGB := (0, 0, 0).
Definition COLOR_RED : RGB := (255, 0, 0).
Definition COLOR_GREEN : RGB := (0, 255, 0).
Definition COLOR_BLUE : RGB := (0, 0, 255).
Definition COLOR_MAGENTA : RGB := (255, 0, 255).
Definition COLOR_YELLOW : RGB := (255, 255, 0).
Definition COLOR_WHITE : RGB := (255, 255, 255).

Definition MIN5_START_LED : Z := 4.
Definition MIN5_LED_COUNT : Z := 11.
Definition MIN5_QUARTER_1 : Z := 2.
Definition MIN5_QUARTER_2 : Z := 5.
Definition MIN5_QUARTER_3 : Z := 8.

Definition rgb_eqb (a b : RGB) : bool :=
  let '(r1, g1, b1) := a in
  let '(r2, g2, b2) := b in
  (r1 =? r2) && (g1 =? g2) && (b1 =? b2).

(** Conversion to [uint16_t]. *)
Definition to_uint16 (a : Z) : Z := a mod 65536.

(** [l[n] = v]. *)
Fixpoint list_set {A : Type} (n : nat) (v : A) (l : list A) : list A :=
  match l, n with
  | [], _ => []
  | _ :: t, O => v :: t
  | h :: t, S n' => h :: list_set n' v t
  end.

(** Entry [idx] of a table of colours. *)
Definition color_at (tbl : list RGB) (idx : Z) : RGB :=
  nth (Z.to_nat idx) tbl BLACK.

(** A write of entry [idx], inside the table. *)
Definition set_color (idx : Z) (c : RGB) (tbl : list RGB) : list RGB :=
  if (0 <=? idx) && (idx <? Z.of_nat (length tbl))
  then list_set (Z.to_nat idx) c tbl
  else tbl.

(** [for (i = start; ...; i++) body], [n] iterations. *)
Fixpoint for_loop {T : Type} (n : nat) (i : Z) (body : Z -> T -> T)
    (acc : T) : T :=
  match n with
  | O => acc
  | S n' => for_loop n' (i + 1) body (body i acc)
  end.

Definition initColorDefines (colorDefines : list RGB) : list RGB :=
  (* minutes 1 (0..3) *)
  let t1 := for_loop 4 0 (fun i t => set_color i COLOR_RED t) colorDefines in
  (* minutes 5 (4..14) *)
  let t2 :=
    for_loop (Z.to_nat MIN5_LED_COUNT) 0
      (fun i t =>
         let ledIndex := to_uint8 (MIN5_START_LED + i) in
         if (i =? MIN5_QUARTER_1) || (i =? MIN5_QUARTER_2)
            || (i =? MIN5_QUARTER_3)
         then set_color ledIndex COLOR_YELLOW t
         else set_color ledIndex COLOR_GREEN t) t1 in
  (* hours 1 (15..18) *)
  let t3 := for_loop 4 15 (fun i t => set_color i COLOR_BLUE t) t2 in
  (* hours 5 (19..22) *)
  let t4 := for_loop 4 19 (fun i t => set_color i COLOR_MAGENTA t) t3 in
  (* seconds LED (23) *)
  set_color SECOND_LED COLOR_WHITE t4.

(** The global array before [setup()] runs: zero-initialised. *)
Definition colorDefines_zero : list RGB := repeat BLACK (Z.to_nat LED_COUNT).

(** [gamma8(inValue)]; [inValue] is a [uint8_t] value. *)
Definition gamma8 (inValue : Z) : Z :=
  let x := to_uint16 inValue in
  let y := to_uint16 (Z.shiftr (x * x + 255) 8) in
  let y := to_uint16 (Z.shiftr (y * x + 255) 8) in
  let y := if y >? 255 then 255 else y in
  to_uint8 y.

(** What the sketch has handed to the strip. *)
Record Strip : Type := mkStrip {
  pixels : list RGB;
  stripBrightness : Z
}.

(** [strip.Color(r, g, b)], its parameters being [uint8_t]. *)
Definition strip_Color (r g b : Z) : RGB := (to_uint8 r, to_uint8 g, to_uint8 b).

Definition strip_clear (st : Strip) : Strip :=
  mkStrip (repeat BLACK (length (pixels st))) (stripBrightness st).

Definition setPixelColor (idx : Z) (c : RGB) (st : Strip) : Strip :=
  mkStrip (set_color idx c (pixels st)) (stripBrightness st).

Definition setBrightness (b : Z) (st : Strip) : Strip :=
  mkStrip (pixels st) (to_uint8 b).

(** One of the four row loops of [renderBerlinClock]: lamp [base + i] is
    lit in its table colour while [i < blocks]. *)
Definition render_row (count : nat) (base blocks : Z) (colorDefines : list RGB)
    (st : Strip) : Strip :=
  for_loop count 0
    (fun i st =>
       if i <? blocks then
         let idx := base + i in
         let '(r, g, b) := color_at colorDefines idx in
         setPixelColor idx (strip_Color r g b) st
       else st) st.

Definition renderBerlinClock (levelLin : Z) (colorDefines : list RGB)
    (s : State) (st : Strip) : Strip :=
  let st := strip_clear st in
  let level := gamma8 levelLin in
  let '(r, g, b) := color_at colorDefines SECOND_LED in
  let st :=
    setPixelColor SECOND_LED
      (strip_Color (Z.quot (r * level) 255) (Z.quot (g * level) 255)
         (Z.quot (b * level) 255)) st in
  let fiveHourBlocks := Z.quot (t_hour s) 5 in
  let oneHourBlocks := Z.rem (t_hour s) 5 in
  let fiveMinBlocks := Z.quot (t_min s) 5 in
  let oneMinBlocks := Z.rem (t_min s) 5 in
  let st := render_row 4 19 fiveHourBlocks colorDefines st in
  let st := render_row 4 15 oneHourBlocks colorDefines st in
  let st := render_row 11 4 fiveMinBlocks colorDefines st in
  let st := render_row 4 0 oneMinBlocks colorDefines st in
  setBrightness (currentBrightness s) st.

(** The colour [showStaticRainbow] gives LED [i]. *)
Definition rainbow_color (i : Z) : RGB :=
  let pos := to_uint8 (Z.land (Z.quot (i * 256) LED_COUNT) 255) in
  if pos <? 85 then
    strip_Color (to_uint8 (pos * 3)) (to_uint8 (255 - pos * 3)) 0
  else if pos <? 170 then
    let pos := to_uint8 (pos - 85) in
    strip_Color (to_uint8 (255 - pos * 3)) 0 (to_uint8 (pos * 3))
  else
    let pos := to_uint8 (pos - 170) in
    strip_Color 0 (to_uint8 (pos * 3)) (to_uint8 (255 - pos * 3)).

Definition showStaticRainbow (s : State) (st : Strip) : Strip :=
  let st :=
    for_loop (Z.to_nat LED_COUNT) 0
      (fun i st => setPixelColor i (rainbow_color i) st) st in
  setBrightness (currentBrightness s) st.

(** The render block of [STATE_SHOW_CLOCK]: [updateTimeFromRtc()] followed
    by [renderBerlinClock(nowMs)]. *)
Definition show_clock_render (sysTime ms levelLin : Z)
    (colorDefines : list RGB) (s : State) (st : Strip) : State * Strip :=
  let s' := updateTimeFromRtc sysTime ms s in
  (s', renderBerlinClock levelLin colorDefines s' st).

(** *** Reading the clock face

    How the lamps are read: a lamp counts when it is not dark; the hour is
    five times the lit lamps of the five-hour row plus those of the
    one-hour row, and likewise for the minute. *)

Definition lamp_on (st : Strip) (idx : Z) : bool :=
  negb (rgb_eqb (color_at (pixels st) idx) BLACK).

Fixpoint count_lamps (n : nat) (idx : Z) (st : Strip) : Z :=
  match n with
  | O => 0
  | S n' => (if lamp_on st idx then 1 else 0) + count_lamps n' (idx + 1) st
  end.

Definition shown_hour (st : Strip) : Z :=
  5 * count_lamps 4 19 st + count_lamps 4 15 st.

Definition shown_minute (st : Strip) : Z :=
  5 * count_lamps 11 4 st + count_lamps 4 0 st.

(* ------------------------------------------------------------------ *)
(** ** States the sketch can be in *)

(** The globals after any number of passes of [loop()], whatever the
    platform answers. *)
Inductive reachable : State -> Prop :=
| reachable_init : reachable initial_state
| reachable_loop (i : LoopInputs) (s : State) :
    reachable s -> reachable (loop i s).

(** Never synchronised, or a plausible reference with the next resync
    after it; the clock is shown only with a reference; waiting for a
    reading always has the timeout armed. *)
Definition reference_inv (s : State) : Prop :=
  (rtcBaseTime s = 0 /\ nextNtpSyncEpoch s = 0
   \/ TIME_FLOOR <= rtcBaseTime s < nextNtpSyncEpoch s)
  /\ (myState s = STATE_SHOW_CLOCK -> TIME_FLOOR <= rtcBaseTime s)
  /\ (myState s = STATE_WAIT_FOR_TIME -> ntpSyncInProgress s = true).

Definition time_fields_inv (s : State) : Prop :=
  0 <= t_hour s < 24 /\ 0 <= t_min s < 60 /\ 0 <= t_sec s < 60.

Definition brightness_inv (s : State) : Prop :=
  minBrightness <= currentBrightness s <= maxBrightness.

(* ================================================================== *)
(** * Properties *)

(** ** Sanity of the calendar model *)

Example epoch_is_day_zero : days_from_civil 1970 1 1 = 0.
Proof. reflexivity. Qed.

Example gmtime_1700000000 :
  gmtime 1700000000 = Some (mkTm 20 13 22 14 10 123 2).
Proof. reflexivity. Qed.

Example last_sundays_2024 :
  lastSunday 2024 3 = 31 /\ lastSunday 2024 10 = 27.
Proof. split; reflexivity. Qed.

(** ** The calendar conversions

    Division is by constants throughout, so the facts below are linear
    integer arithmetic once quotients and remainders are named. *)

Ltac zdiv := Z.to_euclidean_division_equations; lia.

(** Year of the era and day of the year of a day of the era. *)
Lemma civil_of_doe_year (doe : Z) :
  0 <= doe < 146097 ->
  let yoe := (doe - doe / 1460 + doe / 36524 - doe / 146096) / 365 in
  let doy := doe - (365 * yoe + yoe / 4 - yoe / 100) in
  0 <= yoe <= 399 /\ 0 <= doy <= 365
  /\ doe < 365 * (yoe + 1) + (yoe + 1) / 4 - (yoe + 1) / 100
           + (yoe + 1) / 400.
Proof. cbv zeta. intros H. zdiv. Qed.

(** Month (counted from March) and day of a day of the year. *)
Lemma civil_of_doy (doy : Z) :
  0 <= doy <= 365 ->
  let mp := (5 * doy + 2) / 153 in
  let d := doy - (153 * mp + 2) / 5 + 1 in
  0 <= mp <= 11 /\ 1 <= d <= 31.
Proof. cbv zeta. intros H. zdiv. Qed.

(** The first of March in closed form. *)
Lemma days_from_civil_march1 (y : Z) :
  days_from_civil y 3 1
  = 365 * y + y / 4 - y / 100 + y / 400 - EPOCH_ADJUSTMENT_DAYS.
Proof.
  unfold days_from_civil, doe_of_civil, DAYS_PER_ERA, EPOCH_ADJUSTMENT_DAYS.
  cbn [Z.leb Z.compare Pos.compare Pos.compare_cont].
  change ((3 + 9) mod 12) with 0. change ((153 * 0 + 2) / 5) with 0.
  zdiv.
Qed.

(** From March on, a date is the first of March plus its day of the
    year. *)
Lemma days_from_civil_from_march (y m d : Z) :
  3 <= m <= 12 ->
  days_from_civil y m d
  = days_from_civil y 3 1 + (153 * (m - 3) + 2) / 5 + d - 1.
Proof.
  intros Hm. unfold days_from_civil, doe_of_civil.
  destruct (Z.leb_spec m 2); [lia|].
  cbn [Z.leb Z.compare Pos.compare Pos.compare_cont].
  replace ((m + 9) mod 12) with (m - 3) by zdiv.
  change ((3 + 9) mod 12) with 0. change ((153 * 0 + 2) / 5) with 0.
  ring.
Qed.

(** [civil_from_days] yields a date in range, is inverted by
    [days_from_civil], keeps January and February before the first of
    March of their year, and its year is within one era of the day
    number. *)
Lemma civil_from_days_spec (z : Z) :
  forall y m d, civil_from_days z = (y, m, d) ->
  1 <= m <= 12 /\ 1 <= d <= 31 /\ days_from_civil y m d = z
  /\ (m <= 2 -> z < days_from_civil y 3 1)
  /\ 400 * ((z + EPOCH_ADJUSTMENT_DAYS) / DAYS_PER_ERA) <= y
     <= 400 * ((z + EPOCH_ADJUSTMENT_DAYS) / DAYS_PER_ERA) + 400.
Proof.
  intros y m d. unfold civil_from_days, civil_of_doe.
  unfold DAYS_PER_ERA, EPOCH_ADJUSTMENT_DAYS.
  set (n := z + 719468).
  pose proof (Z.mod_pos_bound n 146097 eq_refl) as Hb.
  pose proof (Z.div_mod n 146097 ltac:(discriminate)) as Hn.
  set (doe := n mod 146097) in *. set (era := n / 146097) in *.
  destruct (civil_of_doe_year doe Hb) as (Hyoe & Hdoy & Hnext).
  set (yoe := (doe - doe / 1460 + doe / 36524 - doe / 146096) / 365) in *.
  assert (Edoy : doe = 365 * yoe + yoe / 4 - yoe / 100
                       + (doe - (365 * yoe + yoe / 4 - yoe / 100))) by ring.
  set (doy := doe - (365 * yoe + yoe / 4 - yoe / 100)) in *.
  destruct (civil_of_doy doy Hdoy) as (Hmp & Hd).
  set (mp := (5 * doy + 2) / 153) in *.
  set (dd := doy - (153 * mp + 2) / 5 + 1) in *.
  remember (400 * era) as e400 eqn:He.
  intros E. injection E as <- <- <-. subst e400.
  assert (Hm : (if mp <? 10 then mp + 3 else mp - 9) <= 2 <-> 10 <= mp).
  { destruct (Z.ltb_spec mp 10); lia. }
  assert (Hmm : ((if mp <? 10 then mp + 3 else mp - 9) + 9) mod 12 = mp).
  { destruct (Z.ltb_spec mp 10).
    - replace (mp + 3 + 9) with (mp + 1 * 12) by ring.
      rewrite Z.mod_add by lia. apply Z.mod_small. lia.
    - replace (mp - 9 + 9) with mp by ring. apply Z.mod_small. lia. }
  split; [destruct (Z.ltb_spec mp 10); lia|].
  split; [exact Hd|].
  split; [|split].
  - unfold days_from_civil, doe_of_civil. rewrite Hmm.
    fold dd. unfold DAYS_PER_ERA, EPOCH_ADJUSTMENT_DAYS.
    set (m := if mp <? 10 then mp + 3 else mp - 9) in *.
    assert (Ey : (if m <=? 2
                  then (if m <=? 2 then yoe + 1 else yoe) + 400 * era - 1
                  else (if m <=? 2 then yoe + 1 else yoe) + 400 * era)
                 = yoe + era * 400)
      by (destruct (m <=? 2); ring).
    rewrite Ey, Z.div_add, Z.mod_add by lia.
    rewrite (Z.div_small yoe 400), (Z.mod_small yoe 400) by lia.
    unfold dd, n in *. lia.
  - intros Hle. rewrite days_from_civil_march1.
    unfold EPOCH_ADJUSTMENT_DAYS.
    set (m := if mp <? 10 then mp + 3 else mp - 9) in *.
    destruct (Z.leb_spec m 2); [|lia].
    unfold n in *. zdiv.
  - destruct (_ <=? 2); lia.
Qed.

(** A day of March or October, given by its year of the era. *)
Lemma civil_of_doe_march_october (yoe x m d : Z) :
  0 <= yoe <= 399 -> 1 <= d <= 31 ->
  x = 0 /\ m = 3 \/ x = 214 /\ m = 10 ->
  civil_of_doe (365 * yoe + yoe / 4 - yoe / 100 + x + d - 1) = (yoe, m, d).
Proof.
  intros Hy Hd Hx. unfold civil_of_doe.
  set (doe := 365 * yoe + yoe / 4 - yoe / 100 + x + d - 1).
  assert (Hyoe : (doe - doe / 1460 + doe / 36524 - doe / 146096) / 365 = yoe)
    by (unfold doe; zdiv).
  rewrite Hyoe.
  replace (doe - (365 * yoe + yoe / 4 - yoe / 100)) with (x + d - 1)
    by (unfold doe; ring).
  destruct Hx as [[-> ->] | [-> ->]].
  - replace ((5 * (0 + d - 1) + 2) / 153) with 0 by zdiv.
    change ((153 * 0 + 2) / 5) with 0.
    change (0 <? 10) with true. cbv iota.
    change (0 + 3) with 3. change (3 <=? 2) with false. cbv iota.
    f_equal. lia.
  - replace ((5 * (214 + d - 1) + 2) / 153) with 7 by zdiv.
    change ((153 * 7 + 2) / 5) with 214.
    change (7 <? 10) with true. cbv iota.
    change (7 + 3) with 10. change (10 <=? 2) with false. cbv iota.
    f_equal. lia.
Qed.

(** Days of March and October convert to a day number and back. *)
Lemma civil_from_days_march_october (y m d : Z) :
  m = 3 \/ m = 10 -> 1 <= d <= 31 ->
  civil_from_days (days_from_civil y m d) = (y, m, d).
Proof.
  intros Hm Hd.
  rewrite days_from_civil_from_march by lia.
  rewrite days_from_civil_march1.
  unfold civil_from_days, EPOCH_ADJUSTMENT_DAYS, DAYS_PER_ERA.
  set (x := (153 * (m - 3) + 2) / 5).
  assert (Hx : x = 0 /\ m = 3 \/ x = 214 /\ m = 10)
    by (unfold x; destruct Hm as [-> | ->]; [left | right]; split; reflexivity).
  clearbody x.
  pose proof (Z.mod_pos_bound y 400 ltac:(lia)) as Hyb.
  assert (Hn : 365 * y + y / 4 - y / 100 + y / 400 - 719468 + x + d - 1 + 719468
               = (365 * (y mod 400) + (y mod 400) / 4 - (y mod 400) / 100
                  + x + d - 1) + (y / 400) * 146097)
    by zdiv.
  rewrite Hn, Z.mod_add, Z.div_add by lia.
  set (yoe := y mod 400) in *.
  set (doe := 365 * yoe + yoe / 4 - yoe / 100 + x + d - 1).
  assert (Hdoe : 0 <= doe < 146097) by (unfold doe; zdiv).
  rewrite (Z.mod_small doe 146097), (Z.div_small doe 146097) by exact Hdoe.
  unfold doe. rewrite (civil_of_doe_march_october yoe x m d) by (auto; lia).
  f_equal. f_equal. unfold yoe. zdiv.
Qed.

Lemma sunday_from_31_range (y m : Z) : 25 <= sunday_from_31 y m <= 31.
Proof.
  unfold sunday_from_31, weekday.
  pose proof (Z.mod_pos_bound (days_from_civil y m 31 + 4) 7 eq_refl). lia.
Qed.

Lemma days_from_civil_day (y m d : Z) :
  days_from_civil y m 1 + (d - 1) = days_from_civil y m d.
Proof. unfold days_from_civil, doe_of_civil. ring. Qed.

(** Walking back from the 31st stops where the sketch's subtraction
    lands. *)
Lemma sunday_on_or_before_31 (y m : Z) :
  sunday_on_or_before 6 y m 31 = sunday_from_31 y m.
Proof.
  unfold sunday_from_31. cbn [sunday_on_or_before].
  repeat match goal with
         | |- context [days_from_civil y m ?d] =>
             lazymatch d with
             | 1 => fail
             | _ => rewrite <- (days_from_civil_day y m d)
             end
         end.
  unfold weekday. generalize (days_from_civil y m 1). intros a.
  repeat match goal with
         | |- context [?x =? 0] => destruct (Z.eqb_spec x 0)
         end; zdiv.
Qed.

Lemma last_sunday_of_31 (y : Z) :
  last_sunday_of y 3 = sunday_from_31 y 3
  /\ last_sunday_of y 10 = sunday_from_31 y 10.
Proof. split; apply sunday_on_or_before_31. Qed.

(** Where a day lies relative to a day of March and a day of October of
    its own year, read off its date. *)
Lemma day_order (z y m d ls3 ls10 : Z) :
  civil_from_days z = (y, m, d) ->
  25 <= ls3 <= 31 -> 25 <= ls10 <= 31 ->
  (m < 3 -> z < days_from_civil y 3 ls3)
  /\ (m = 3 -> z - days_from_civil y 3 ls3 = d - ls3
               /\ z < days_from_civil y 10 ls10)
  /\ (3 < m < 10 -> days_from_civil y 3 ls3 < z < days_from_civil y 10 ls10)
  /\ (m = 10 -> days_from_civil y 3 ls3 < z
                /\ z - days_from_civil y 10 ls10 = d - ls10)
  /\ (10 < m -> days_from_civil y 10 ls10 < z).
Proof.
  intros Hc H3 H10.
  destruct (civil_from_days_spec z y m d Hc) as (Hm & Hd & Hz & Hjf & _).
  rewrite (days_from_civil_from_march y 3 ls3),
    (days_from_civil_from_march y 10 ls10) by lia.
  change ((153 * (3 - 3) + 2) / 5) with 0.
  change ((153 * (10 - 3) + 2) / 5) with 214.
  split; [intros Hlt; specialize (Hjf ltac:(lia)); lia|].
  assert (Hfm : 3 <= m ->
            z = days_from_civil y 3 1 + (153 * (m - 3) + 2) / 5 + d - 1).
  { intros Hge. rewrite <- Hz. apply days_from_civil_from_march. lia. }
  repeat split; intros; specialize (Hfm ltac:(lia)); zdiv.
Qed.

(** ** [gmtime] and [mktime] *)

Lemma gmtime_Some (u : Z) (t : tm) :
  gmtime u = Some t ->
  t = tm_of_time u /\ INT_MIN <= tm_year t <= INT_MAX.
Proof.
  unfold gmtime.
  destruct ((INT_MIN <=? tm_year (tm_of_time u))
            && (tm_year (tm_of_time u) <=? INT_MAX)) eqn:E; [|discriminate].
  intros [= <-]. apply andb_true_iff in E. rewrite !Z.leb_le in E. tauto.
Qed.

Lemma gmtime_in_range (u : Z) :
  INT_MIN <= tm_year (tm_of_time u) <= INT_MAX ->
  gmtime u = Some (tm_of_time u).
Proof.
  intros [H1 H2]. unfold gmtime.
  apply Z.leb_le in H1, H2. now rewrite H1, H2.
Qed.

Lemma tm_of_time_civil (u y m d : Z) :
  civil_from_days (u / SECSPERDAY) = (y, m, d) ->
  tm_of_time u =
  mkTm ((u mod SECSPERDAY) mod 60) (((u mod SECSPERDAY) mod 3600) / 60)
       ((u mod SECSPERDAY) / 3600) d (m - 1) (y - 1900)
       (weekday (u / SECSPERDAY)).
Proof. unfold tm_of_time. intros ->. reflexivity. Qed.

(** An instant given as a day number and a second of the day. *)
Lemma day_second_split (z r : Z) :
  0 <= r < SECSPERDAY ->
  (z * SECSPERDAY + r) / SECSPERDAY = z
  /\ (z * SECSPERDAY + r) mod SECSPERDAY = r.
Proof.
  intros Hr. unfold SECSPERDAY in *. split.
  - symmetry. apply (Z.div_unique _ 86400 z r); lia.
  - symmetry. apply (Z.mod_unique _ 86400 z r); lia.
Qed.

(** [lastSunday] on the two months the sketch asks about. *)
Lemma lastSunday_31 (y m : Z) :
  m = 3 \/ m = 10 -> INT_MIN <= y - 1900 <= INT_MAX ->
  lastSunday y m = sunday_from_31 y m.
Proof.
  intros Hm Hy. unfold lastSunday, mktime, time_of_tm.
  cbn [tm_year tm_mon tm_mday tm_hour tm_min tm_sec].
  assert (Hmon : (m - 1) / 12 = 0 /\ (m - 1) mod 12 + 1 = m)
    by (destruct Hm as [-> | ->]; split; reflexivity).
  destruct Hmon as [-> ->].
  replace (y - 1900 + 1900 + 0) with y by ring.
  rewrite days_from_civil_day.
  replace (days_from_civil y m 31 * SECSPERDAY + 12 * 3600 + 0 * 60 + 0)
    with (days_from_civil y m 31 * SECSPERDAY + 43200) by ring.
  destruct (day_second_split (days_from_civil y m 31) 43200) as [Hd Hs];
    [unfold SECSPERDAY; lia|].
  pose proof (civil_from_days_march_october y m 31 Hm ltac:(lia)) as Hc.
  rewrite <- Hd in Hc.
  rewrite gmtime_in_range; rewrite (tm_of_time_civil _ _ _ _ Hc);
    cbn [tm_year tm_wday]; [|exact Hy].
  rewrite Hd. reflexivity.
Qed.

(** ** The daylight-saving predicate read off the date *)

Lemma isDstEurope_civil (u y m d : Z) :
  civil_from_days (u / SECSPERDAY) = (y, m, d) ->
  INT_MIN <= y - 1900 <= INT_MAX ->
  isDstEurope u =
  (if (m <? 3) || (m >? 10) then false
   else if (m >? 3) && (m <? 10) then true
   else if m =? 3 then
     if d >? sunday_from_31 y 3 then true
     else if d <? sunday_from_31 y 3 then false
     else (u mod SECSPERDAY) / 3600 >=? 1
   else if m =? 10 then
     if d <? sunday_from_31 y 10 then true
     else if d >? sunday_from_31 y 10 then false
     else (u mod SECSPERDAY) / 3600 <? 1
   else false).
Proof.
  intros Hc Hy. unfold isDstEurope.
  rewrite gmtime_in_range; rewrite (tm_of_time_civil _ _ _ _ Hc);
    cbn [tm_year tm_mon tm_mday tm_hour]; [|exact Hy].
  replace (y - 1900 + 1900) with y by ring.
  replace (m - 1 + 1) with m by ring.
  rewrite !lastSunday_31 by (auto; lia).
  reflexivity.
Qed.

(** Daylight saving holds exactly from 01:00 UTC on the last Sunday of
    March to 01:00 UTC on the last Sunday of October of the same year. *)
Lemma isDstEurope_rule (u : Z) (t : tm) :
  gmtime u = Some t ->
  (isDstEurope u = true <->
   dst_start (tm_year t + 1900) <= u < dst_end (tm_year t + 1900)).
Proof.
  intros H. apply gmtime_Some in H as [-> Hr].
  destruct (civil_from_days (u / SECSPERDAY)) as [[y m] d] eqn:Hc.
  rewrite (tm_of_time_civil _ _ _ _ Hc) in *. cbn [tm_year] in *.
  replace (y - 1900 + 1900) with y by ring.
  rewrite (isDstEurope_civil _ _ _ _ Hc Hr).
  unfold dst_start, dst_end, utc_of_civil.
  destruct (last_sunday_of_31 y) as [-> ->].
  pose proof (sunday_from_31_range y 3) as R3.
  pose proof (sunday_from_31_range y 10) as R10.
  destruct (day_order _ _ _ _ _ _ Hc R3 R10) as (O1 & O2 & O3 & O4 & O5).
  set (ls3 := sunday_from_31 y 3) in *.
  set (ls10 := sunday_from_31 y 10) in *.
  set (S := days_from_civil y 3 ls3) in *.
  set (E := days_from_civil y 10 ls10) in *.
  unfold SECSPERDAY in *.
  pose proof (Z.div_mod u 86400 ltac:(lia)) as Hu.
  pose proof (Z.mod_pos_bound u 86400 ltac:(lia)) as Hrem.
  set (z := u / 86400) in *. set (r := u mod 86400) in *.
  pose proof (Z.div_mod r 3600 ltac:(lia)) as Hh.
  pose proof (Z.mod_pos_bound r 3600 ltac:(lia)) as Hhrem.
  set (h := r / 3600) in *.
  rewrite !Z.gtb_ltb, Z.geb_leb.
  destruct (Z.ltb_spec m 3);
    [specialize (O1 ltac:(lia)); simpl; split; [discriminate | lia]|].
  destruct (Z.ltb_spec 10 m).
  { specialize (O5 ltac:(lia)). simpl. split; [discriminate | lia]. }
  cbn [orb].
  destruct (Z.eqb_spec m 3) as [->|Hm3].
  { cbn [andb Z.ltb Z.compare Pos.compare Pos.compare_cont].
    destruct (O2 eq_refl) as [Od Oe].
    destruct (Z.ltb_spec ls3 d); [split; [lia | reflexivity]|].
    destruct (Z.ltb_spec d ls3); [split; [discriminate | lia]|].
    destruct (Z.leb_spec 1 h); split; intros; try reflexivity;
      try discriminate; lia. }
  destruct (Z.ltb_spec 3 m); [|lia].
  destruct (Z.ltb_spec m 10).
  { cbn [andb]. specialize (O3 ltac:(lia)). split; [lia | reflexivity]. }
  cbn [andb].
  destruct (Z.eqb_spec m 10) as [->|]; [|lia].
  destruct (O4 eq_refl) as [Os Od].
  destruct (Z.ltb_spec d ls10); [split; [lia | reflexivity]|].
  destruct (Z.ltb_spec ls10 d); [split; [discriminate | lia]|].
  destruct (Z.ltb_spec h 1); split; intros; try reflexivity;
    try discriminate; lia.
Qed.

(** On a change Sunday the predicate depends on the hour alone. *)
Lemma isDstEurope_change_day (y r : Z) :
  INT_MIN <= y - 1900 <= INT_MAX -> 0 <= r < SECSPERDAY ->
  isDstEurope (days_from_civil y 3 (sunday_from_31 y 3) * SECSPERDAY + r)
  = (r / 3600 >=? 1)
  /\ isDstEurope (days_from_civil y 10 (sunday_from_31 y 10) * SECSPERDAY + r)
     = (r / 3600 <? 1).
Proof.
  intros Hy Hr.
  pose proof (sunday_from_31_range y 3) as R3.
  pose proof (sunday_from_31_range y 10) as R10.
  split.
  - destruct (day_second_split (days_from_civil y 3 (sunday_from_31 y 3)) r Hr)
      as [Hd Hs].
    pose proof (civil_from_days_march_october y 3 (sunday_from_31 y 3)
                  ltac:(auto) ltac:(lia)) as Hc.
    rewrite <- Hd in Hc. rewrite (isDstEurope_civil _ _ _ _ Hc Hy), Hs.
    cbn [Z.ltb Z.gtb Z.eqb Z.compare Pos.compare Pos.compare_cont Pos.eqb orb andb].
    now rewrite Z.gtb_ltb, Z.ltb_irrefl.
  - destruct (day_second_split (days_from_civil y 10 (sunday_from_31 y 10)) r Hr)
      as [Hd Hs].
    pose proof (civil_from_days_march_october y 10 (sunday_from_31 y 10)
                  ltac:(auto) ltac:(lia)) as Hc.
    rewrite <- Hd in Hc. rewrite (isDstEurope_civil _ _ _ _ Hc Hy), Hs.
    cbn [Z.ltb Z.gtb Z.eqb Z.compare Pos.compare Pos.compare_cont Pos.eqb orb andb].
    now rewrite Z.gtb_ltb, Z.ltb_irrefl.
Qed.

(** The predicate flips at 01:00:00 UTC of the two change Sundays. *)
Lemma isDstEurope_transitions (y : Z) :
  INT_MIN <= y - 1900 <= INT_MAX ->
  isDstEurope (dst_start y - 1) = false /\ isDstEurope (dst_start y) = true
  /\ isDstEurope (dst_end y - 1) = true /\ isDstEurope (dst_end y) = false.
Proof.
  intros Hy. unfold dst_start, dst_end, utc_of_civil.
  destruct (last_sunday_of_31 y) as [-> ->].
  assert (H1 : 0 <= 3599 < SECSPERDAY) by (unfold SECSPERDAY; lia).
  assert (H2 : 0 <= 3600 < SECSPERDAY) by (unfold SECSPERDAY; lia).
  destruct (isDstEurope_change_day y 3599 Hy H1) as [A1 B1].
  destruct (isDstEurope_change_day y 3600 Hy H2) as [A2 B2].
  repeat split.
  - rewrite <- A1 at 1. f_equal. ring.
  - rewrite <- A2 at 1. f_equal. ring.
  - rewrite <- B1 at 1. f_equal. ring.
  - rewrite <- B2 at 1. f_equal. ring.
Qed.

(** April to September is summer time, November to February is not. *)
Lemma isDstEurope_by_month (u : Z) (t : tm) :
  gmtime u = Some t ->
  (4 <= tm_mon t + 1 <= 9 -> isDstEurope u = true)
  /\ (tm_mon t + 1 <= 2 \/ 11 <= tm_mon t + 1 -> isDstEurope u = false).
Proof.
  intros H. apply gmtime_Some in H as [-> Hr].
  destruct (civil_from_days (u / SECSPERDAY)) as [[y m] d] eqn:Hc.
  rewrite (tm_of_time_civil _ _ _ _ Hc) in *. cbn [tm_year tm_mon] in *.
  rewrite (isDstEurope_civil _ _ _ _ Hc Hr).
  replace (m - 1 + 1) with m by ring.
  rewrite !Z.gtb_ltb.
  split; intros Hm.
  - destruct (Z.ltb_spec m 3); [lia|]. destruct (Z.ltb_spec 10 m); [lia|].
    destruct (Z.ltb_spec 3 m); [|lia]. destruct (Z.ltb_spec m 10); [|lia].
    reflexivity.
  - destruct (Z.ltb_spec m 3); [reflexivity|].
    destruct (Z.ltb_spec 10 m); [reflexivity|]. lia.
Qed.

(** [last_sunday_of] names a Sunday among the last seven days of March
    and of October. *)
Lemma last_sunday_of_is_sunday (y m : Z) :
  m = 3 \/ m = 10 ->
  25 <= last_sunday_of y m <= 31
  /\ weekday (days_from_civil y m (last_sunday_of y m)) = 0.
Proof.
  intros Hm.
  assert (E : last_sunday_of y m = sunday_from_31 y m)
    by (destruct (last_sunday_of_31 y); destruct Hm as [-> | ->]; assumption).
  rewrite E. split; [apply sunday_from_31_range|].
  unfold sunday_from_31.
  rewrite <- (days_from_civil_day y m (31 - _)), <- (days_from_civil_day y m 31).
  unfold weekday.
  set (a := days_from_civil y m 1).
  replace (a + (31 - 1) + 4) with (a + 34) by ring.
  pose proof (Z.div_mod (a + 34) 7 ltac:(lia)) as Hdiv.
  set (w := (a + 34) mod 7) in *.
  replace (a + (31 - w - 1) + 4) with ((a + 34) / 7 * 7) by lia.
  apply Z.mod_mul. lia.
Qed.

(** The offset is one hour or two. *)
Lemma getDisplayTime_offset (u : Z) :
  getDisplayTime u - u = 3600 \/ getDisplayTime u - u = 7200.
Proof.
  unfold getDisplayTime, getUtcOffsetSeconds.
  destruct (isDstEurope u); [right | left]; ring.
Qed.

(** ** The scan of the scheduler *)

Lemma candidate_matches_iff (c : Z) :
  candidate_matches c = true <-> display_is_sync_time c.
Proof.
  unfold candidate_matches, display_is_sync_time.
  destruct (gmtime (getDisplayTime c)) as [d|].
  - rewrite !andb_true_iff, !Z.eqb_eq. split.
    + intros [[? ?] ?]. exists d. auto.
    + intros (d' & [= <-] & ? & ? & ?). auto.
  - split; [discriminate|]. intros (d' & ? & _). discriminate.
Qed.

Lemma nightly_scan_S (n : nat) (i startUtc : Z) :
  nightly_scan (S n) i startUtc
  = if candidate_matches (startUtc + i * 60)
    then Some (startUtc + i * 60)
    else nightly_scan n (i + 1) startUtc.
Proof. reflexivity. Qed.

Lemma nightly_scan_Some (n : nat) (startUtc : Z) :
  forall i c, nightly_scan n i startUtc = Some c ->
  exists j, i <= j < i + Z.of_nat n /\ c = startUtc + j * 60
            /\ candidate_matches c = true
            /\ forall j', i <= j' < j ->
                 candidate_matches (startUtc + j' * 60) = false.
Proof.
  induction n as [|n IH]; intros i c H; [discriminate|].
  rewrite Nat2Z.inj_succ. rewrite nightly_scan_S in H.
  destruct (candidate_matches (startUtc + i * 60)) eqn:E.
  - injection H as <-. exists i.
    split; [lia|]. split; [reflexivity|]. split; [exact E|].
    intros j' Hj'. lia.
  - destruct (IH _ _ H) as (j & Hj & -> & Hm & Hfirst).
    exists j. split; [lia|]. split; [reflexivity|]. split; [exact Hm|].
    intros j' Hj'. destruct (Z.eq_dec j' i) as [->|]; [exact E|].
    apply Hfirst. lia.
Qed.

Lemma nightly_scan_None (n : nat) (startUtc : Z) :
  forall i, nightly_scan n i startUtc = None ->
  forall j, i <= j < i + Z.of_nat n ->
  candidate_matches (startUtc + j * 60) = false.
Proof.
  induction n as [|n IH]; intros i H j Hj; [simpl in Hj; lia|].
  rewrite Nat2Z.inj_succ in Hj. rewrite nightly_scan_S in H.
  destruct (candidate_matches (startUtc + i * 60)) eqn:E; [discriminate|].
  destruct (Z.eq_dec j i) as [->|]; [exact E|].
  apply (IH _ H). lia.
Qed.

Lemma next_full_minute_gt (u : Z) : u < next_full_minute u.
Proof.
  unfold next_full_minute.
  pose proof (Z.rem_bound_abs u 60 ltac:(lia)). lia.
Qed.

Lemma next_full_minute_mod (u : Z) : next_full_minute u mod 60 = 0.
Proof.
  unfold next_full_minute.
  pose proof (Z.quot_rem' u 60) as H.
  replace (u - Z.rem u 60 + 60) with ((Z.quot u 60 + 1) * 60) by lia.
  apply Z.mod_mul. lia.
Qed.

Lemma next_full_minute_nonneg (u : Z) :
  0 <= u -> next_full_minute u = 60 * (u / 60) + 60.
Proof.
  intros Hu. unfold next_full_minute.
  rewrite Z.rem_mod_nonneg by lia.
  pose proof (Z.div_mod u 60 ltac:(lia)). lia.
Qed.

(** The stored instant is later than the argument, on both paths. *)
Lemma scheduleNextNightlySync_later (u : Z) (s : State) :
  u < nextNtpSyncEpoch (scheduleNextNightlySync u s).
Proof.
  unfold scheduleNextNightlySync.
  destruct (nightly_scan (Z.to_nat maxMinutes) 0 (next_full_minute u))
    as [c|] eqn:E; cbn [set_nextNtpSyncEpoch nextNtpSyncEpoch].
  - destruct (nightly_scan_Some _ _ _ _ E) as (j & Hj & -> & _).
    pose proof (next_full_minute_gt u). lia.
  - lia.
Qed.

(** ** A match exists every day *)

Lemma year_fits (u : Z) :
  0 <= u < CALENDAR_MAX + 4 * SECSPERDAY ->
  INT_MIN <= tm_year (tm_of_time u) <= INT_MAX.
Proof.
  intros Hu.
  destruct (civil_from_days (u / SECSPERDAY)) as [[y m] d] eqn:Hc.
  rewrite (tm_of_time_civil _ _ _ _ Hc). cbn [tm_year].
  destruct (civil_from_days_spec _ _ _ _ Hc) as (_ & _ & _ & _ & Hy).
  unfold CALENDAR_MAX, SECSPERDAY, EPOCH_ADJUSTMENT_DAYS, DAYS_PER_ERA,
    INT_MIN, INT_MAX in *.
  assert (Hz : 0 <= u / 86400 < 2 ^ 39).
  { split; [apply Z.div_pos; lia|].
    apply Z.div_lt_upper_bound; [lia|]. change (2 ^ 55) with 36028797018963968 in Hu.
    change (2 ^ 39) with 549755813888. lia. }
  assert (Hk : 0 <= (u / 86400 + 719468) / 146097 < 2 ^ 22).
  { split; [apply Z.div_pos; lia|].
    apply Z.div_lt_upper_bound; [lia|].
    change (2 ^ 39) with 549755813888 in Hz. change (2 ^ 22) with 4194304. lia. }
  change (2 ^ 22) with 4194304 in Hk. change (2 ^ 31) with 2147483648. lia.
Qed.

(** Every day of the calendar has an instant, at 01:05 or at 02:05 UTC,
    whose display time is 03:05:00. *)
Lemma daily_match (z : Z) :
  0 <= z -> z * SECSPERDAY < CALENDAR_MAX + 3 * SECSPERDAY ->
  candidate_matches (z * SECSPERDAY + 3900) = true
  \/ candidate_matches (z * SECSPERDAY + 7500) = true.
Proof.
  intros Hz Hmax.
  assert (Hfit : forall r, 0 <= r < SECSPERDAY ->
            INT_MIN <= tm_year (tm_of_time (z * SECSPERDAY + r)) <= INT_MAX).
  { intros r Hr. apply year_fits. unfold SECSPERDAY in *. lia. }
  assert (Hdisp :
            match gmtime (z * SECSPERDAY + 11100) with
            | None => false
            | Some d => (tm_hour d =? ntpSyncHour)
                        && (tm_min d =? ntpSyncMinute) && (tm_sec d =? 0)
            end = true).
  { rewrite gmtime_in_range by (apply Hfit; unfold SECSPERDAY; lia).
    destruct (day_second_split z 11100 ltac:(unfold SECSPERDAY; lia)) as [Hd Hs].
    unfold tm_of_time. rewrite Hs.
    destruct (civil_from_days _) as [[y m] d]. reflexivity. }
  destruct (civil_from_days z) as [[y m] d] eqn:Hc.
  destruct (day_second_split z 3900 ltac:(unfold SECSPERDAY; lia)) as [Hd1 Hs1].
  destruct (day_second_split z 7500 ltac:(unfold SECSPERDAY; lia)) as [Hd2 Hs2].
  assert (Hy : INT_MIN <= y - 1900 <= INT_MAX).
  { pose proof (Hfit 3900 ltac:(unfold SECSPERDAY; lia)) as F.
    rewrite <- Hd1 in Hc. now rewrite (tm_of_time_civil _ _ _ _ Hc) in F. }
  assert (Hsame : isDstEurope (z * SECSPERDAY + 3900)
                  = isDstEurope (z * SECSPERDAY + 7500)).
  { rewrite (isDstEurope_civil (z * SECSPERDAY + 3900) y m d), Hs1
      by (rewrite ?Hd1; assumption).
    rewrite (isDstEurope_civil (z * SECSPERDAY + 7500) y m d), Hs2
      by (rewrite ?Hd2; assumption).
    reflexivity. }
  unfold candidate_matches, getDisplayTime, getUtcOffsetSeconds.
  rewrite <- Hsame.
  destruct (isDstEurope (z * SECSPERDAY + 3900)); [left | right].
  - replace (z * SECSPERDAY + 3900 + 7200) with (z * SECSPERDAY + 11100) by ring.
    exact Hdisp.
  - replace (z * SECSPERDAY + 7500 + 3600) with (z * SECSPERDAY + 11100) by ring.
    exact Hdisp.
Qed.

(** From any whole minute, a match lies within the 2880 candidates. *)
Lemma match_within_window (startUtc : Z) :
  0 <= startUtc < CALENDAR_MAX + 60 -> startUtc mod 60 = 0 ->
  exists j, 0 <= j < maxMinutes
            /\ candidate_matches (startUtc + j * 60) = true.
Proof.
  intros Hs Hm.
  pose proof (Z.div_mod startUtc 60 ltac:(lia)) as Hq. rewrite Hm in Hq.
  pose proof (Z.div_mod startUtc SECSPERDAY ltac:(discriminate)) as Hd.
  pose proof (Z.mod_pos_bound startUtc SECSPERDAY eq_refl) as Hr.
  set (q := startUtc / 60) in *.
  set (z := startUtc / SECSPERDAY + 1).
  assert (Hz0 : 0 <= startUtc / SECSPERDAY)
    by (apply Z.div_pos; [lia | reflexivity]).
  destruct (daily_match z) as [M | M].
  - lia.
  - unfold z, CALENDAR_MAX, SECSPERDAY in *. lia.
  - exists (1440 * z + 65 - q). unfold maxMinutes, z, SECSPERDAY in *.
    split; [lia|]. rewrite <- M. f_equal. lia.
  - exists (1440 * z + 125 - q). unfold maxMinutes, z, SECSPERDAY in *.
    split; [lia|]. rewrite <- M. f_equal. lia.
Qed.

(** Below [CALENDAR_MAX] the scan always returns early. *)
Lemma nightly_scan_succeeds (u : Z) :
  0 <= u < CALENDAR_MAX ->
  exists c, nightly_scan (Z.to_nat maxMinutes) 0 (next_full_minute u) = Some c.
Proof.
  intros Hu.
  destruct (nightly_scan (Z.to_nat maxMinutes) 0 (next_full_minute u))
    as [c|] eqn:E; [now exists c|].
  exfalso.
  destruct (match_within_window (next_full_minute u)) as (j & Hj & Hm).
  - rewrite next_full_minute_nonneg by lia.
    pose proof (Z.div_mod u 60 ltac:(lia)).
    pose proof (Z.mod_pos_bound u 60 ltac:(lia)). lia.
  - apply next_full_minute_mod.
  - rewrite (nightly_scan_None _ _ _ E j) in Hm; [discriminate|].
    rewrite Z2Nat.id by (unfold maxMinutes; lia). lia.
Qed.

(* ================================================================== *)
(** * The resync scheduler *)

(** C1, as the specification states it, fails: from 2024-10-27T00:30:00
    UTC the scheduler does not store 2024-10-27T01:05:00 UTC. *)
Lemma scheduleNext_clock_change_not_0105 :
  nextNtpSyncEpoch
    (scheduleNextNightlySync (utc_of_civil 2024 10 27 0 30 0) initial_state)
  <> utc_of_civil 2024 10 27 1 5 0.
Proof. vm_compute. discriminate. Qed.

(** C1, amended: with the resync time 03:05 and current UTC
    2024-10-27T00:30:00 (epoch 1729989000), the scheduler stores
    2024-10-27T02:05:00 UTC.  Summer time ends at 01:00 UTC that day, so
    01:05 UTC is displayed as 02:05 and 02:05 UTC as 03:05. *)
Theorem scheduleNext_clock_change_sunday (s : State) :
  utc_of_civil 2024 10 27 0 30 0 = 1729989000
  /\ nextNtpSyncEpoch
       (scheduleNextNightlySync (utc_of_civil 2024 10 27 0 30 0) s)
     = utc_of_civil 2024 10 27 2 5 0
  /\ isDstEurope (utc_of_civil 2024 10 27 1 5 0) = false
  /\ getDisplayTime (utc_of_civil 2024 10 27 1 5 0)
     = utc_of_civil 2024 10 27 2 5 0
  /\ getDisplayTime (utc_of_civil 2024 10 27 2 5 0)
     = utc_of_civil 2024 10 27 3 5 0.
Proof.
  split; [reflexivity|]. split.
  - unfold scheduleNextNightlySync.
    replace (nightly_scan (Z.to_nat maxMinutes) 0
               (next_full_minute (utc_of_civil 2024 10 27 0 30 0)))
      with (Some (utc_of_civil 2024 10 27 2 5 0))
      by (vm_compute; reflexivity).
    reflexivity.
  - split; [vm_compute; reflexivity|].
    split; vm_compute; reflexivity.
Qed.

(** C3, as the specification states it, fails: 2024-10-27T02:05:00 UTC
    (epoch 1729994700) is a whole minute whose display time is 03:05:00,
    yet the scheduler called with it stores the instant one day later. *)
Lemma scheduleNext_skips_matching_input :
  1729994700 mod 60 = 0
  /\ candidate_matches 1729994700 = true
  /\ nextNtpSyncEpoch (scheduleNextNightlySync 1729994700 initial_state)
     = 1729994700 + 86400
  /\ nextNtpSyncEpoch (scheduleNextNightlySync 1729994700 initial_state)
     <> 1729994700.
Proof.
  split; [reflexivity|]. split; [vm_compute; reflexivity|].
  split; [vm_compute; reflexivity|]. vm_compute. discriminate.
Qed.

(** C3, amended: for an instant [fromUtc] from the epoch up to
    [CALENDAR_MAX], the scan starts at the first whole minute strictly
    after [fromUtc] and the scheduler stores the first of the 2880
    minute-spaced candidates whose display time reads 03:05:00; such a
    candidate exists, and the stored instant is never [fromUtc] itself. *)
Theorem scheduleNextNightlySync_first_match (fromUtc : Z) (s : State) :
  0 <= fromUtc < CALENDAR_MAX ->
  let startUtc := next_full_minute fromUtc in
  let stored := nextNtpSyncEpoch (scheduleNextNightlySync fromUtc s) in
  (startUtc = 60 * (fromUtc / 60) + 60
   /\ fromUtc < startUtc <= fromUtc + 60 /\ startUtc mod 60 = 0)
  /\ startUtc <= stored < startUtc + maxMinutes * 60
  /\ stored mod 60 = 0
  /\ display_is_sync_time stored
  /\ (forall c, startUtc <= c < stored -> c mod 60 = 0 ->
        ~ display_is_sync_time c)
  /\ stored <> fromUtc.
Proof.
  intros Hu startUtc stored.
  assert (Hstart : startUtc = 60 * (fromUtc / 60) + 60)
    by (apply next_full_minute_nonneg; lia).
  pose proof (Z.div_mod fromUtc 60 ltac:(lia)) as Hdm.
  pose proof (Z.mod_pos_bound fromUtc 60 ltac:(lia)) as Hmb.
  pose proof (next_full_minute_mod fromUtc) as Hsm. fold startUtc in Hsm.
  destruct (nightly_scan_succeeds fromUtc Hu) as (c & Hc).
  assert (Hst : stored = c).
  { unfold stored, scheduleNextNightlySync. now rewrite Hc. }
  destruct (nightly_scan_Some _ _ _ _ Hc) as (j & Hj & Hcj & Hm & Hfirst).
  fold startUtc in Hcj, Hfirst.
  rewrite Z2Nat.id in Hj by (unfold maxMinutes; lia).
  rewrite Hst.
  split; [split; [lia | split; [lia | exact Hsm]]|].
  split; [lia|].
  split.
  { rewrite Hcj, Z.add_mod, Hsm, Z.mod_mul by lia. reflexivity. }
  split; [now apply candidate_matches_iff|].
  split; [|lia].
  intros c' Hc' Hmod Hd. apply candidate_matches_iff in Hd.
  pose proof (Z.div_mod c' 60 ltac:(lia)) as Hc'q. rewrite Hmod in Hc'q.
  pose proof (Z.div_mod startUtc 60 ltac:(lia)) as Hsq. rewrite Hsm in Hsq.
  assert (Hc'eq : c' = startUtc + (c' / 60 - startUtc / 60) * 60) by lia.
  rewrite Hc'eq, (Hfirst (c' / 60 - startUtc / 60)) in Hd; [discriminate | lia].
Qed.

Lemma scheduleNextNightlySync_first_match_witness :
  0 <= 1729994700 < CALENDAR_MAX
  /\ display_is_sync_time
       (nextNtpSyncEpoch (scheduleNextNightlySync 1729994700 initial_state))
  /\ nextNtpSyncEpoch (scheduleNextNightlySync 1729994700 initial_state)
     <> 1729994700.
Proof.
  assert (H : 0 <= 1729994700 < CALENDAR_MAX) by (unfold CALENDAR_MAX; lia).
  split; [exact H|].
  pose proof (scheduleNextNightlySync_first_match 1729994700 initial_state H)
    as T.
  cbv zeta in T.
  destruct T as (_ & _ & _ & Hd & _ & Hne).
  split; [exact Hd | exact Hne].
Defined.

(** C8: the scheduler is idempotent (its result does not depend on the
    schedule stored before, and a second call with the same argument
    changes nothing), the stored instant is strictly later than the
    argument, and when the scan finds nothing the stored instant is the
    argument plus 24 hours. *)
Theorem scheduleNextNightlySync_idempotent_later (fromUtc : Z) (s : State) :
  scheduleNextNightlySync fromUtc (scheduleNextNightlySync fromUtc s)
  = scheduleNextNightlySync fromUtc s
  /\ (forall s', nextNtpSyncEpoch (scheduleNextNightlySync fromUtc s')
                 = nextNtpSyncEpoch (scheduleNextNightlySync fromUtc s))
  /\ fromUtc < nextNtpSyncEpoch (scheduleNextNightlySync fromUtc s)
  /\ (nightly_scan (Z.to_nat maxMinutes) 0 (next_full_minute fromUtc) = None ->
      nextNtpSyncEpoch (scheduleNextNightlySync fromUtc s)
      = fromUtc + 24 * 3600
      /\ fromUtc < fromUtc + 24 * 3600).
Proof.
  split; [|split; [|split]].
  - unfold scheduleNextNightlySync.
    destruct (nightly_scan _ _ _); destruct s; reflexivity.
  - intros s'. unfold scheduleNextNightlySync.
    destruct (nightly_scan _ _ _); reflexivity.
  - apply scheduleNextNightlySync_later.
  - intros H. unfold scheduleNextNightlySync. rewrite H. simpl. lia.
Qed.

(** The fallback arm runs where [gmtime] has no answer. *)
Lemma scheduleNextNightlySync_idempotent_later_witness :
  nextNtpSyncEpoch (scheduleNextNightlySync (2 ^ 62) initial_state)
  = 2 ^ 62 + 24 * 3600
  /\ 2 ^ 62 < 2 ^ 62 + 24 * 3600.
Proof.
  apply (scheduleNextNightlySync_idempotent_later (2 ^ 62) initial_state).
  vm_compute. reflexivity.
Defined.

(** C4: when [shouldStartNightlySync t] answers true, a schedule was set
    and had been reached, the new state holds the schedule recomputed from
    [t], which is later than [t]; a following call with [t] again, or with
    any instant before the new schedule, answers false. *)
Theorem shouldStartNightlySync_fires_once (t : Z) (s : State) :
  fst (shouldStartNightlySync t s) = true ->
  let s' := snd (shouldStartNightlySync t s) in
  (nextNtpSyncEpoch s <> 0 /\ nextNtpSyncEpoch s <= t)
  /\ s' = scheduleNextNightlySync t s
  /\ t < nextNtpSyncEpoch s'
  /\ fst (shouldStartNightlySync t s') = false
  /\ (forall t', t' < nextNtpSyncEpoch s' ->
        fst (shouldStartNightlySync t' s') = false).
Proof.
  unfold shouldStartNightlySync at 1 2.
  destruct (Z.eqb_spec (nextNtpSyncEpoch s) 0) as [|Hne]; [discriminate|].
  destruct (Z.ltb_spec t (nextNtpSyncEpoch s)) as [|Hle]; [discriminate|].
  intros _. cbn [snd].
  pose proof (scheduleNextNightlySync_later t s) as Hlater.
  assert (Hnot : forall t', t' < nextNtpSyncEpoch (scheduleNextNightlySync t s) ->
            fst (shouldStartNightlySync t' (scheduleNextNightlySync t s)) = false).
  { intros t' Ht'. unfold shouldStartNightlySync.
    destruct (_ =? 0); [reflexivity|].
    destruct (Z.ltb_spec t' (nextNtpSyncEpoch (scheduleNextNightlySync t s)));
      [reflexivity | lia]. }
  repeat split; auto.
Qed.

Lemma shouldStartNightlySync_fires_once_witness :
  fst (shouldStartNightlySync 1729994700
         (set_nextNtpSyncEpoch 1729994700 initial_state)) = true
  /\ fst (shouldStartNightlySync 1729994700
            (snd (shouldStartNightlySync 1729994700
                    (set_nextNtpSyncEpoch 1729994700 initial_state))))
     = false.
Proof.
  assert (H : fst (shouldStartNightlySync 1729994700
                     (set_nextNtpSyncEpoch 1729994700 initial_state)) = true)
    by reflexivity.
  split; [exact H|].
  exact (proj1 (proj2 (proj2 (proj2
           (shouldStartNightlySync_fires_once 1729994700 _ H))))).
Defined.

(* ================================================================== *)
(** * The daylight-saving predicate *)

(** C2: for every UTC instant [u] that [gmtime] can break down, with [y]
    its year and [m] its month, [isDstEurope u] holds exactly when [u] lies
    from 01:00:00 UTC on the last Sunday of March of [y] (included) to
    01:00:00 UTC on the last Sunday of October of [y] (excluded); it is
    false at 00:59:59 and true at 01:00:00 of the March Sunday, true at
    00:59:59 and false at 01:00:00 of the October Sunday, true throughout
    April to September and false throughout November to February. *)
Theorem isDstEurope_eu_rule (u : Z) (t : tm) :
  gmtime u = Some t ->
  let y := tm_year t + 1900 in
  let m := tm_mon t + 1 in
  (isDstEurope u = true <-> dst_start y <= u < dst_end y)
  /\ (isDstEurope (dst_start y - 1) = false
      /\ isDstEurope (dst_start y) = true)
  /\ (isDstEurope (dst_end y - 1) = true
      /\ isDstEurope (dst_end y) = false)
  /\ (4 <= m <= 9 -> isDstEurope u = true)
  /\ (m <= 2 \/ 11 <= m -> isDstEurope u = false).
Proof.
  intros H y m.
  destruct (gmtime_Some _ _ H) as [_ Hr].
  assert (Hy : INT_MIN <= y - 1900 <= INT_MAX) by (unfold y; lia).
  destruct (isDstEurope_transitions y Hy) as (T1 & T2 & T3 & T4).
  destruct (isDstEurope_by_month u t H) as [M1 M2].
  split; [exact (isDstEurope_rule u t H)|].
  split; [split; assumption|].
  split; [split; assumption|].
  split; assumption.
Qed.

Lemma isDstEurope_eu_rule_witness :
  gmtime 1729989000 = Some (mkTm 0 30 0 27 9 124 0)
  /\ (isDstEurope 1729989000 = true <->
      dst_start 2024 <= 1729989000 < dst_end 2024).
Proof.
  split; [reflexivity|].
  exact (proj1 (isDstEurope_eu_rule 1729989000 (mkTm 0 30 0 27 9 124 0)
                  eq_refl)).
Defined.

(* ================================================================== *)
(** * The internal clock *)

Lemma ulong_sub_elapsed (base e : Z) :
  is_ulong base -> 0 <= e < ULONG_MOD ->
  ulong_sub ((base + e) mod ULONG_MOD) base = e.
Proof.
  intros Hb He. unfold ulong_sub.
  rewrite Zminus_mod_idemp_l.
  replace (base + e - base) with e by ring.
  apply Z.mod_small. exact He.
Qed.

(** C7: with the reference (1700000000, 1000) and the tick 61000 the clock
    reads 1700000060; and whatever the reference tick, once [e]
    milliseconds have passed the tick counter, reduced modulo 2^32, gives
    the reference time plus [e / 1000] seconds, also when the counter has
    wrapped below the reference tick. *)
Theorem getCurrentRtcTime_elapsed (sysTime e : Z) (s : State) :
  rtcBaseTime s <> 0 -> is_ulong (rtcBaseMillis s) -> 0 <= e < ULONG_MOD ->
  getCurrentRtcTime sysTime ((rtcBaseMillis s + e) mod ULONG_MOD) s
  = rtcBaseTime s + e / 1000
  /\ getCurrentRtcTime sysTime 61000 (set_rtcBase 1700000000 1000 s)
     = 1700000060.
Proof.
  intros Hne Hb He. split; [|reflexivity].
  unfold getCurrentRtcTime.
  destruct (Z.eqb_spec (rtcBaseTime s) 0) as [|_]; [contradiction|].
  now rewrite ulong_sub_elapsed.
Qed.

(** The counter has wrapped: reference tick 2^32 - 1000, tick 59000. *)
Lemma getCurrentRtcTime_elapsed_witness :
  59000 < 2 ^ 32 - 1000
  /\ getCurrentRtcTime 0 59000
       (set_rtcBase 1700000000 (2 ^ 32 - 1000) initial_state)
     = 1700000060.
Proof.
  split; [reflexivity|].
  refine (proj1 (getCurrentRtcTime_elapsed 0 60000
                   (set_rtcBase 1700000000 (2 ^ 32 - 1000) initial_state)
                   _ _ _)).
  - discriminate.
  - split; [discriminate | reflexivity].
  - split; [discriminate | reflexivity].
Defined.

(** C10: while no reading has been absorbed ([rtcBaseTime = 0]) the clock
    hands back the system time; otherwise it returns the reference time
    plus the milliseconds elapsed since the reference tick, taken modulo
    2^32, divided by 1000. *)
Theorem getCurrentRtcTime_cases (sysTime ms : Z) (s : State) :
  (rtcBaseTime s = 0 -> getCurrentRtcTime sysTime ms s = sysTime)
  /\ (rtcBaseTime s <> 0 ->
      getCurrentRtcTime sysTime ms s
      = rtcBaseTime s + ((ms - rtcBaseMillis s) mod 2 ^ 32) / 1000).
Proof.
  unfold getCurrentRtcTime.
  destruct (Z.eqb_spec (rtcBaseTime s) 0); split; intros; try reflexivity;
    contradiction.
Qed.

Lemma getCurrentRtcTime_cases_witness :
  getCurrentRtcTime 1234 61000 initial_state = 1234
  /\ getCurrentRtcTime 1234 500
       (set_rtcBase 1700000000 (2 ^ 32 - 1500) initial_state)
     = 1700000002.
Proof.
  split.
  - exact (proj1 (getCurrentRtcTime_cases 1234 61000 initial_state) eq_refl).
  - refine (proj2 (getCurrentRtcTime_cases 1234 500
                     (set_rtcBase 1700000000 (2 ^ 32 - 1500) initial_state))
                  _).
    discriminate.
Defined.

(* ================================================================== *)
(** * Absorbing a reading *)

Lemma brightness_tick_frame (nowMs ldr : Z) (s : State) :
  let s' := brightness_tick nowMs ldr s in
  myState s' = myState s /\ rtcBaseTime s' = rtcBaseTime s
  /\ rtcBaseMillis s' = rtcBaseMillis s
  /\ nextNtpSyncEpoch s' = nextNtpSyncEpoch s
  /\ ntpSyncInProgress s' = ntpSyncInProgress s
  /\ ntpSyncStartMs s' = ntpSyncStartMs s
  /\ wifiLostSinceMs s' = wifiLostSinceMs s.
Proof.
  unfold brightness_tick.
  destruct (_ >=? _); cbn; repeat split; reflexivity.
Qed.

Lemma wait_timed_out_brightness (ms nowMs ldr : Z) (s : State) :
  wait_timed_out ms (brightness_tick nowMs ldr s) = wait_timed_out ms s.
Proof.
  unfold wait_timed_out.
  destruct (brightness_tick_frame nowMs ldr s) as (_ & _ & _ & _ & -> & -> & _).
  reflexivity.
Qed.

Lemma superviseWiFi_frame (nowMs : Z) (connected : bool) (s : State) :
  let s' := superviseWiFi nowMs connected s in
  rtcBaseTime s' = rtcBaseTime s /\ rtcBaseMillis s' = rtcBaseMillis s
  /\ nextNtpSyncEpoch s' = nextNtpSyncEpoch s.
Proof.
  unfold superviseWiFi.
  destruct connected; cbn [negb]; [cbn; auto|].
  destruct (wifiLostSinceMs s =? 0); destruct (_ >? _); cbn; auto.
Qed.

(** A rejected reading sends the waiting state back to the network
    configuration without touching the reference or the schedule. *)
Lemma loop_wait_rejected (i : LoopInputs) (s : State) :
  myState s = STATE_WAIT_FOR_TIME ->
  wait_timed_out (in_millis2 i) s = false ->
  isTimeValid (in_timeValid i) = true ->
  in_timeSync i < TIME_FLOOR ->
  myState (loop i s) = STATE_WIFI_CONFIG
  /\ rtcBaseTime (loop i s) = rtcBaseTime s
  /\ rtcBaseMillis (loop i s) = rtcBaseMillis s
  /\ nextNtpSyncEpoch (loop i s) = nextNtpSyncEpoch s.
Proof.
  intros Hst Hto Hvalid Hlow. unfold loop.
  destruct (brightness_tick_frame (in_nowMs i) (in_ldr i) s)
    as (E1 & E2 & E3 & E4 & _).
  rewrite E1, Hst, wait_timed_out_brightness, Hto, Hvalid.
  unfold syncRtcFromSystemTime.
  apply Z.ltb_lt in Hlow. rewrite Hlow. cbn. auto.
Qed.

(** A pass whose timeout has struck does the same. *)
Lemma loop_wait_timeout (i : LoopInputs) (s : State) :
  myState s = STATE_WAIT_FOR_TIME ->
  wait_timed_out (in_millis2 i) s = true ->
  myState (loop i s) = STATE_WIFI_CONFIG
  /\ rtcBaseTime (loop i s) = rtcBaseTime s
  /\ rtcBaseMillis (loop i s) = rtcBaseMillis s
  /\ nextNtpSyncEpoch (loop i s) = nextNtpSyncEpoch s.
Proof.
  intros Hst Hto. unfold loop.
  destruct (brightness_tick_frame (in_nowMs i) (in_ldr i) s)
    as (E1 & E2 & E3 & E4 & _).
  rewrite E1, Hst, wait_timed_out_brightness, Hto. cbn. auto.
Qed.

(** While the validity poll itself reads a time below the floor, the
    absorb step is not reached: the pass keeps waiting unless the
    supervisor forces a reset. *)
Lemma loop_wait_poll_invalid (i : LoopInputs) (s : State) :
  myState s = STATE_WAIT_FOR_TIME ->
  wait_timed_out (in_millis2 i) s = false ->
  in_timeValid i < TIME_FLOOR ->
  loop i s = superviseWiFi (in_nowMs i) (in_wifiSup i)
               (brightness_tick (in_nowMs i) (in_ldr i) s).
Proof.
  intros Hst Hto Hlow. unfold loop.
  destruct (brightness_tick_frame (in_nowMs i) (in_ldr i) s) as (E1 & _).
  rewrite E1, Hst, wait_timed_out_brightness, Hto.
  unfold isTimeValid. apply Z.ltb_lt in Hlow. now rewrite Hlow.
Qed.

(** The scheduler writes [nextNtpSyncEpoch] and nothing else, and what it
    writes depends on its argument alone. *)
Lemma scheduleNextNightlySync_frame (u : Z) (s : State) :
  myState (scheduleNextNightlySync u s) = myState s
  /\ rtcBaseTime (scheduleNextNightlySync u s) = rtcBaseTime s
  /\ rtcBaseMillis (scheduleNextNightlySync u s) = rtcBaseMillis s
  /\ wifiLostSinceMs (scheduleNextNightlySync u s) = wifiLostSinceMs s.
Proof.
  unfold scheduleNextNightlySync.
  destruct (nightly_scan _ _ _); split; try split; try split; reflexivity.
Qed.

Lemma scheduleNextNightlySync_value (u : Z) (s s' : State) :
  nextNtpSyncEpoch (scheduleNextNightlySync u s)
  = nextNtpSyncEpoch (scheduleNextNightlySync u s').
Proof.
  unfold scheduleNextNightlySync.
  destruct (nightly_scan _ _ _); reflexivity.
Qed.

(** C5: a reading below the floor 1451606400 makes
    [syncRtcFromSystemTime] return false with the state as it was, and the
    waiting state that ran the absorb step then falls back to
    [STATE_WIFI_CONFIG], reference and schedule unchanged; a reading at or
    above the floor is accepted, replaces the reference pair and
    recomputes the schedule from it. *)
Theorem syncRtcFromSystemTime_floor (i : LoopInputs) (s : State) :
  TIME_FLOOR = 1451606400
  /\ (in_timeSync i < TIME_FLOOR ->
      syncRtcFromSystemTime (in_timeSync i) (in_millisSync i) s = (false, s)
      /\ (myState s = STATE_WAIT_FOR_TIME ->
          wait_timed_out (in_millis2 i) s = false ->
          isTimeValid (in_timeValid i) = true ->
          myState (loop i s) = STATE_WIFI_CONFIG
          /\ rtcBaseTime (loop i s) = rtcBaseTime s
          /\ rtcBaseMillis (loop i s) = rtcBaseMillis s
          /\ nextNtpSyncEpoch (loop i s) = nextNtpSyncEpoch s))
  /\ (TIME_FLOOR <= in_timeSync i ->
      let r := syncRtcFromSystemTime (in_timeSync i) (in_millisSync i) s in
      fst r = true
      /\ rtcBaseTime (snd r) = in_timeSync i
      /\ rtcBaseMillis (snd r) = in_millisSync i
      /\ nextNtpSyncEpoch (snd r)
         = nextNtpSyncEpoch (scheduleNextNightlySync (in_timeSync i) s)
      /\ in_timeSync i < nextNtpSyncEpoch (snd r)).
Proof.
  split; [reflexivity|]. split.
  - intros Hlow. split.
    + unfold syncRtcFromSystemTime. apply Z.ltb_lt in Hlow. now rewrite Hlow.
    + intros Hst Hto Hvalid. now apply loop_wait_rejected.
  - intros Hok r. unfold r, syncRtcFromSystemTime.
    destruct (Z.ltb_spec (in_timeSync i) TIME_FLOOR) as [|_]; [lia|].
    cbn [fst snd].
    destruct (scheduleNextNightlySync_frame (in_timeSync i)
                (set_rtcBase (in_timeSync i) (in_millisSync i) s))
      as (_ & -> & -> & _).
    rewrite (scheduleNextNightlySync_value (in_timeSync i) _ s).
    split; [reflexivity|]. split; [reflexivity|]. split; [reflexivity|].
    split; [reflexivity|]. apply scheduleNextNightlySync_later.
Qed.

Lemma syncRtcFromSystemTime_floor_witness :
  myState (loop (mkLoopInputs 5000 0 5000 1451606400 1451606399 5000
                   0 0 0 0 true true)
             (set_rtcBase 1700000000 1000
                (set_myState STATE_WAIT_FOR_TIME initial_state)))
  = STATE_WIFI_CONFIG
  /\ rtcBaseTime
       (loop (mkLoopInputs 5000 0 5000 1451606400 1451606399 5000
                0 0 0 0 true true)
          (set_rtcBase 1700000000 1000
             (set_myState STATE_WAIT_FOR_TIME initial_state)))
     = 1700000000.
Proof.
  pose proof (proj2 (proj1 (proj2
    (syncRtcFromSystemTime_floor
       (mkLoopInputs 5000 0 5000 1451606400 1451606399 5000
          0 0 0 0 true true)
       (set_rtcBase 1700000000 1000
          (set_myState STATE_WAIT_FOR_TIME initial_state))))
    eq_refl) eq_refl eq_refl eq_refl) as T.
  destruct T as (T1 & T2 & _).
  split; [exact T1 | exact T2].
Defined.

(* ================================================================== *)
(** * The connectivity supervisor *)

(** C6, the sketch on the ticks of the scenario: a loss first seen at tick
    0 is not recorded, because 0 is also the value of [wifiLostSinceMs]
    that means no loss is being timed.  The call at 59999 records 59999,
    and at 60001 only 2 ms have passed: no reset is forced and
    [wifiLostSinceMs] stays 59999. *)
Theorem superviseWiFi_loss_at_tick_zero (s : State) :
  wifiLostSinceMs s = 0 ->
  let s1 := superviseWiFi 0 false s in
  let s2 := superviseWiFi 59999 false s1 in
  let s3 := superviseWiFi 60001 false s2 in
  (myState s1 = myState s /\ wifiLostSinceMs s1 = 0)
  /\ (myState s2 = myState s /\ wifiLostSinceMs s2 = 59999)
  /\ (myState s3 = myState s /\ wifiLostSinceMs s3 = 59999).
Proof.
  intros H. unfold superviseWiFi. cbn [negb]. rewrite H. cbn.
  repeat split; reflexivity.
Qed.

Lemma superviseWiFi_loss_at_tick_zero_witness :
  myState
    (superviseWiFi 60001 false
       (superviseWiFi 59999 false
          (superviseWiFi 0 false
             (set_myState STATE_SHOW_CLOCK initial_state))))
  = STATE_SHOW_CLOCK.
Proof.
  exact (proj1 (proj2 (proj2
    (superviseWiFi_loss_at_tick_zero
       (set_myState STATE_SHOW_CLOCK initial_state) eq_refl)))).
Defined.

(** A loss first seen at a tick other than 0 is timed from that tick: no
    reset while the wrapping difference is at most 60000 ms, and a forced
    return to [STATE_WIFI_CONFIG] with [wifiLostSinceMs] cleared at the
    first call where it exceeds 60000 ms. *)
Lemma superviseWiFi_absence_bound (t0 t1 t2 : Z) (s : State) :
  wifiLostSinceMs s = 0 -> t0 <> 0 ->
  ulong_sub t1 t0 <= wifiLostTimeoutMs ->
  wifiLostTimeoutMs < ulong_sub t2 t0 ->
  let s1 := superviseWiFi t0 false s in
  let s2 := superviseWiFi t1 false s1 in
  let s3 := superviseWiFi t2 false s2 in
  (myState s1 = myState s /\ wifiLostSinceMs s1 = t0)
  /\ (myState s2 = myState s /\ wifiLostSinceMs s2 = t0)
  /\ (myState s3 = STATE_WIFI_CONFIG /\ wifiLostSinceMs s3 = 0).
Proof.
  intros H Hne H1 H2.
  assert (E0 : (ulong_sub t0 t0 >? wifiLostTimeoutMs) = false).
  { unfold ulong_sub. rewrite Z.sub_diag. reflexivity. }
  assert (S1 : superviseWiFi t0 false s = set_wifiLostSinceMs t0 s).
  { unfold superviseWiFi. cbn [negb]. rewrite H. cbn [Z.eqb].
    cbn [set_wifiLostSinceMs wifiLostSinceMs]. now rewrite E0. }
  assert (S2 : superviseWiFi t1 false (set_wifiLostSinceMs t0 s)
               = set_wifiLostSinceMs t0 s).
  { unfold superviseWiFi, set_wifiLostSinceMs. cbn [negb wifiLostSinceMs].
    destruct (Z.eqb_spec t0 0) as [|_]; [contradiction|].
    cbn [wifiLostSinceMs].
    destruct (Z.gtb_spec (ulong_sub t1 t0) wifiLostTimeoutMs); [lia|].
    reflexivity. }
  assert (S3 : superviseWiFi t2 false (set_wifiLostSinceMs t0 s)
               = set_myState STATE_WIFI_CONFIG
                   (set_wifiLostSinceMs 0 (set_wifiLostSinceMs t0 s))).
  { unfold superviseWiFi, set_wifiLostSinceMs. cbn [negb wifiLostSinceMs].
    destruct (Z.eqb_spec t0 0) as [|_]; [contradiction|].
    cbn [wifiLostSinceMs].
    destruct (Z.gtb_spec (ulong_sub t2 t0) wifiLostTimeoutMs); [|lia].
    reflexivity. }
  cbv zeta. rewrite S1, S2, S3. cbn. repeat split; reflexivity.
Qed.

(* ================================================================== *)
(** * Re-entering the network configuration state *)

Lemma updateTimeFromRtc_frame (sysTime ms : Z) (s : State) :
  myState (updateTimeFromRtc sysTime ms s) = myState s
  /\ rtcBaseTime (updateTimeFromRtc sysTime ms s) = rtcBaseTime s
  /\ rtcBaseMillis (updateTimeFromRtc sysTime ms s) = rtcBaseMillis s.
Proof.
  unfold updateTimeFromRtc.
  destruct (gmtime _); split; try split; reflexivity.
Qed.

Lemma shouldStartNightlySync_frame (u : Z) (s : State) :
  rtcBaseTime (snd (shouldStartNightlySync u s)) = rtcBaseTime s
  /\ rtcBaseMillis (snd (shouldStartNightlySync u s)) = rtcBaseMillis s.
Proof.
  destruct (scheduleNextNightlySync_frame u s) as (_ & F1 & F2 & _).
  unfold shouldStartNightlySync.
  destruct (_ =? 0); [cbn [snd]; auto|].
  destruct (_ <? _); cbn [snd]; auto.
Qed.

(** A pass through [STATE_SHOW_CLOCK] never writes the reference. *)
Lemma loop_show_clock_frame (i : LoopInputs) (s : State) :
  myState s = STATE_SHOW_CLOCK ->
  rtcBaseTime (loop i s) = rtcBaseTime s
  /\ rtcBaseMillis (loop i s) = rtcBaseMillis s.
Proof.
  intros Hst. unfold loop.
  destruct (brightness_tick_frame (in_nowMs i) (in_ldr i) s)
    as (E1 & E2 & E3 & _).
  rewrite E1, Hst.
  set (s0 := brightness_tick (in_nowMs i) (in_ldr i) s) in *.
  set (s1 := if ulong_sub (in_nowMs i) (lastRenderMillis s0) >=? renderIntervalMs
             then updateTimeFromRtc (in_timeRtc1 i) (in_millisRtc1 i)
                    (set_lastRenderMillis (in_nowMs i) s0)
             else s0).
  assert (F1 : rtcBaseTime s1 = rtcBaseTime s0
               /\ rtcBaseMillis s1 = rtcBaseMillis s0).
  { unfold s1. destruct (_ >=? _); [|auto].
    destruct (updateTimeFromRtc_frame (in_timeRtc1 i) (in_millisRtc1 i)
                (set_lastRenderMillis (in_nowMs i) s0)) as (_ & -> & ->).
    auto. }
  set (u := getCurrentRtcTime (in_timeRtc2 i) (in_millisRtc2 i) s1).
  pose proof (shouldStartNightlySync_frame u s1) as F2.
  destruct (shouldStartNightlySync u s1) as [due s2]. cbn [snd] in F2.
  set (s3 := if due
             then set_myState STATE_WAIT_FOR_TIME
                    (set_ntpSync true (in_millis2 i) s2)
             else s2).
  assert (F3 : rtcBaseTime s3 = rtcBaseTime s2
               /\ rtcBaseMillis s3 = rtcBaseMillis s2)
    by (unfold s3; destruct due; auto).
  destruct (superviseWiFi_frame (in_nowMs i) (in_wifiSup i) s3)
    as (-> & -> & _).
  destruct F1 as [A1 B1], F2 as [A2 B2], F3 as [A3 B3].
  split; congruence.
Qed.

(** C9: each way back into [STATE_WIFI_CONFIG] leaves [rtcBaseTime] and
    [rtcBaseMillis] as they were: the pass that times out waiting for
    NTP, the pass whose reading is rejected, and the supervisor, whatever
    it decides (so also a pass through [STATE_SHOW_CLOCK] that it ends by
    forcing the reset); with both fields unchanged [getCurrentRtcTime]
    goes on computing from the same reference. *)
Theorem reenter_wifi_config_keeps_reference (i : LoopInputs) (s : State) :
  (myState s = STATE_WAIT_FOR_TIME ->
   wait_timed_out (in_millis2 i) s = true ->
   myState (loop i s) = STATE_WIFI_CONFIG
   /\ rtcBaseTime (loop i s) = rtcBaseTime s
   /\ rtcBaseMillis (loop i s) = rtcBaseMillis s)
  /\ (myState s = STATE_WAIT_FOR_TIME ->
      wait_timed_out (in_millis2 i) s = false ->
      isTimeValid (in_timeValid i) = true ->
      in_timeSync i < TIME_FLOOR ->
      myState (loop i s) = STATE_WIFI_CONFIG
      /\ rtcBaseTime (loop i s) = rtcBaseTime s
      /\ rtcBaseMillis (loop i s) = rtcBaseMillis s)
  /\ (forall nowMs connected,
        rtcBaseTime (superviseWiFi nowMs connected s) = rtcBaseTime s
        /\ rtcBaseMillis (superviseWiFi nowMs connected s) = rtcBaseMillis s)
  /\ (myState s = STATE_SHOW_CLOCK ->
      rtcBaseTime (loop i s) = rtcBaseTime s
      /\ rtcBaseMillis (loop i s) = rtcBaseMillis s)
  /\ (forall s' sysTime ms,
        rtcBaseTime s' = rtcBaseTime s -> rtcBaseMillis s' = rtcBaseMillis s ->
        getCurrentRtcTime sysTime ms s' = getCurrentRtcTime sysTime ms s).
Proof.
  split; [|split; [|split; [|split]]].
  - intros Hst Hto.
    destruct (loop_wait_timeout i s Hst Hto) as (A & B & C & _). auto.
  - intros Hst Hto Hv Hlow.
    destruct (loop_wait_rejected i s Hst Hto Hv Hlow) as (A & B & C & _). auto.
  - intros nowMs connected.
    destruct (superviseWiFi_frame nowMs connected s) as (A & B & _). auto.
  - apply loop_show_clock_frame.
  - intros s' sysTime ms E1 E2. unfold getCurrentRtcTime.
    now rewrite E1, E2.
Qed.

(** The supervisor forces the reset out of [STATE_SHOW_CLOCK]: WiFi lost
    since tick 1000, the pass at tick 70000. *)
Lemma reenter_wifi_config_keeps_reference_witness :
  myState
    (loop (mkLoopInputs 70000 0 70000 0 0 0 0 70000 0 70000 false false)
       (set_wifiLostSinceMs 1000
          (set_nextNtpSyncEpoch 1700050000
             (set_rtcBase 1700000000 1000
                (set_myState STATE_SHOW_CLOCK initial_state)))))
  = STATE_WIFI_CONFIG
  /\ rtcBaseTime
       (loop (mkLoopInputs 70000 0 70000 0 0 0 0 70000 0 70000 false false)
          (set_wifiLostSinceMs 1000
             (set_nextNtpSyncEpoch 1700050000
                (set_rtcBase 1700000000 1000
                   (set_myState STATE_SHOW_CLOCK initial_state)))))
     = 1700000000.
Proof.
  split; [vm_compute; reflexivity|].
  exact (proj1 (proj1 (proj2 (proj2 (proj2
    (reenter_wifi_config_keeps_reference
       (mkLoopInputs 70000 0 70000 0 0 0 0 70000 0 70000 false false)
       (set_wifiLostSinceMs 1000
          (set_nextNtpSyncEpoch 1700050000
             (set_rtcBase 1700000000 1000
                (set_myState STATE_SHOW_CLOCK initial_state)))))))) eq_refl)).
Defined.

Lemma rtcBaseTime_set_myState (v : ClockState_t) (s : State) :
  rtcBaseTime (set_myState v s) = rtcBaseTime s.
Proof. reflexivity. Qed.

Lemma rtcBaseMillis_set_myState (v : ClockState_t) (s : State) :
  rtcBaseMillis (set_myState v s) = rtcBaseMillis s.
Proof. reflexivity. Qed.

Lemma rtcBaseTime_set_ntpSyncInProgress (v : bool) (s : State) :
  rtcBaseTime (set_ntpSyncInProgress v s) = rtcBaseTime s.
Proof. reflexivity. Qed.

Lemma rtcBaseMillis_set_ntpSyncInProgress (v : bool) (s : State) :
  rtcBaseMillis (set_ntpSyncInProgress v s) = rtcBaseMillis s.
Proof. reflexivity. Qed.

(** The pass that absorbs a reading. *)
Lemma loop_wait_accepted (i : LoopInputs) (s : State) :
  myState s = STATE_WAIT_FOR_TIME ->
  wait_timed_out (in_millis2 i) s = false ->
  isTimeValid (in_timeValid i) = true ->
  TIME_FLOOR <= in_timeSync i ->
  loop i s =
  superviseWiFi (in_nowMs i) (in_wifiSup i)
    (set_myState STATE_SHOW_CLOCK
       (set_ntpSyncInProgress false
          (scheduleNextNightlySync (in_timeSync i)
             (set_rtcBase (in_timeSync i) (in_millisSync i)
                (brightness_tick (in_nowMs i) (in_ldr i) s))))).
Proof.
  intros Hst Hto Hv Hge. unfold loop.
  destruct (brightness_tick_frame (in_nowMs i) (in_ldr i) s) as (E1 & _).
  rewrite E1, Hst, wait_timed_out_brightness, Hto, Hv.
  unfold syncRtcFromSystemTime.
  destruct (Z.ltb_spec (in_timeSync i) TIME_FLOOR) as [|_]; [lia|].
  reflexivity.
Qed.

(** Seen over a whole pass: a pass that starts outside [STATE_WIFI_CONFIG]
    and ends in it has kept the reference, except when the same pass first
    absorbed a fresh reading and the supervisor then forced the reset. *)
Lemma loop_reenter_wifi_config (i : LoopInputs) (s : State) :
  myState s <> STATE_WIFI_CONFIG ->
  myState (loop i s) = STATE_WIFI_CONFIG ->
  (rtcBaseTime (loop i s) = rtcBaseTime s
   /\ rtcBaseMillis (loop i s) = rtcBaseMillis s)
  \/ (myState s = STATE_WAIT_FOR_TIME
      /\ wait_timed_out (in_millis2 i) s = false
      /\ isTimeValid (in_timeValid i) = true
      /\ TIME_FLOOR <= in_timeSync i
      /\ rtcBaseTime (loop i s) = in_timeSync i
      /\ rtcBaseMillis (loop i s) = in_millisSync i).
Proof.
  intros Hne Hend.
  destruct (myState s) eqn:Hst; [contradiction | |].
  - destruct (wait_timed_out (in_millis2 i) s) eqn:Hto.
    { left. destruct (loop_wait_timeout i s Hst Hto) as (_ & A & B & _). auto. }
    destruct (Z.ltb_spec (in_timeValid i) TIME_FLOOR) as [Hlow|Hge].
    { left. rewrite (loop_wait_poll_invalid i s Hst Hto Hlow).
      destruct (superviseWiFi_frame (in_nowMs i) (in_wifiSup i)
                  (brightness_tick (in_nowMs i) (in_ldr i) s)) as (-> & -> & _).
      destruct (brightness_tick_frame (in_nowMs i) (in_ldr i) s)
        as (_ & A & B & _). auto. }
    assert (Hv : isTimeValid (in_timeValid i) = true).
    { unfold isTimeValid. destruct (Z.ltb_spec (in_timeValid i) TIME_FLOOR);
        [lia | reflexivity]. }
    destruct (Z.ltb_spec (in_timeSync i) TIME_FLOOR) as [Hlow|Hge2].
    { left. destruct (loop_wait_rejected i s Hst Hto Hv Hlow)
        as (_ & A & B & _). auto. }
    right. split; [reflexivity|]. split; [reflexivity|].
    split; [exact Hv|]. split; [exact Hge2|].
    rewrite (loop_wait_accepted i s Hst Hto Hv Hge2).
    set (s0 := brightness_tick (in_nowMs i) (in_ldr i) s).
    set (s1 := scheduleNextNightlySync (in_timeSync i)
                 (set_rtcBase (in_timeSync i) (in_millisSync i) s0)).
    destruct (superviseWiFi_frame (in_nowMs i) (in_wifiSup i)
                (set_myState STATE_SHOW_CLOCK (set_ntpSyncInProgress false s1)))
      as (-> & -> & _).
    rewrite rtcBaseTime_set_myState, rtcBaseMillis_set_myState,
      rtcBaseTime_set_ntpSyncInProgress, rtcBaseMillis_set_ntpSyncInProgress.
    destruct (scheduleNextNightlySync_frame (in_timeSync i)
                (set_rtcBase (in_timeSync i) (in_millisSync i) s0))
      as (_ & A & B & _).
    fold s1 in A, B. rewrite A, B. split; reflexivity.
  - left. now apply loop_show_clock_frame.
Qed.

(* ================================================================== *)
(** * Further properties of the calendar math and of the main loop *)

Lemma superviseWiFi_absence_bound_witness :
  myState
    (superviseWiFi 60002 false
       (superviseWiFi 60000 false
          (superviseWiFi 1 false
             (set_myState STATE_SHOW_CLOCK initial_state))))
  = STATE_WIFI_CONFIG
  /\ wifiLostSinceMs
       (superviseWiFi 60002 false
          (superviseWiFi 60000 false
             (superviseWiFi 1 false
                (set_myState STATE_SHOW_CLOCK initial_state))))
     = 0.
Proof.
  refine (proj2 (proj2
    (superviseWiFi_absence_bound 1 60000 60002
       (set_myState STATE_SHOW_CLOCK initial_state) eq_refl _ _ _))).
  - discriminate.
  - discriminate.
  - reflexivity.
Defined.

(** In March and October [lastSunday] returns the day of the month of the
    month's last Sunday. *)
Lemma lastSunday_is_last_sunday (y m : Z) :
  m = 3 \/ m = 10 -> INT_MIN <= y - 1900 <= INT_MAX ->
  lastSunday y m = last_sunday_of y m
  /\ 25 <= lastSunday y m <= 31
  /\ weekday (days_from_civil y m (lastSunday y m)) = 0.
Proof.
  intros Hm Hy.
  assert (E : lastSunday y m = last_sunday_of y m).
  { rewrite (lastSunday_31 y m Hm Hy).
    destruct (last_sunday_of_31 y) as [E3 E10].
    destruct Hm as [-> | ->]; congruence. }
  rewrite E. split; [reflexivity|].
  now apply last_sunday_of_is_sunday.
Qed.

Lemma lastSunday_is_last_sunday_witness :
  lastSunday 2025 3 = 30 /\ lastSunday 2025 10 = 26.
Proof.
  split.
  - refine (eq_trans (proj1 (lastSunday_is_last_sunday 2025 3 _ _)) _).
    + left; reflexivity.
    + split; discriminate.
    + reflexivity.
  - refine (eq_trans (proj1 (lastSunday_is_last_sunday 2025 10 _ _)) _).
    + right; reflexivity.
    + split; discriminate.
    + reflexivity.
Defined.

(** Up to [CALENDAR_MAX] the scheduler never takes its 24-hour
    fallback. *)
Lemma scheduleNextNightlySync_no_fallback (u : Z) :
  0 <= u < CALENDAR_MAX ->
  nightly_scan (Z.to_nat maxMinutes) 0 (next_full_minute u) <> None.
Proof.
  intros Hu. destruct (nightly_scan_succeeds u Hu) as (c & ->). discriminate.
Qed.

Lemma scheduleNextNightlySync_no_fallback_witness :
  nightly_scan (Z.to_nat maxMinutes) 0 (next_full_minute 1451606400) <> None.
Proof.
  apply (scheduleNextNightlySync_no_fallback 1451606400).
  split; [discriminate | reflexivity].
Defined.

Lemma loop_reenter_wifi_config_witness :
  rtcBaseTime
    (loop (mkLoopInputs 70000 0 70000 1700090000 1700090000 70000
             0 0 0 0 false false)
       (set_wifiLostSinceMs 1000
          (set_rtcBase 1700000000 1000
             (set_myState STATE_WAIT_FOR_TIME initial_state))))
  = 1700090000.
Proof.
  assert (H1 : myState
                 (set_wifiLostSinceMs 1000
                    (set_rtcBase 1700000000 1000
                       (set_myState STATE_WAIT_FOR_TIME initial_state)))
               <> STATE_WIFI_CONFIG) by discriminate.
  assert (H2 : myState
                 (loop (mkLoopInputs 70000 0 70000 1700090000 1700090000
                          70000 0 0 0 0 false false)
                    (set_wifiLostSinceMs 1000
                       (set_rtcBase 1700000000 1000
                          (set_myState STATE_WAIT_FOR_TIME initial_state))))
               = STATE_WIFI_CONFIG) by (vm_compute; reflexivity).
  destruct (loop_reenter_wifi_config _ _ H1 H2)
    as [[A _] | (_ & _ & _ & _ & A & _)].
  - vm_compute in A. discriminate A.
  - exact A.
Defined.

(** A pass of the waiting state whose validity poll reads a time below
    the floor, with the connection up and the timeout not yet struck,
    stays in the waiting state and changes neither reference nor
    schedule. *)
Lemma loop_wait_keeps_waiting (i : LoopInputs) (s : State) :
  myState s = STATE_WAIT_FOR_TIME ->
  wait_timed_out (in_millis2 i) s = false ->
  in_timeValid i < TIME_FLOOR ->
  in_wifiSup i = true ->
  myState (loop i s) = STATE_WAIT_FOR_TIME
  /\ rtcBaseTime (loop i s) = rtcBaseTime s
  /\ rtcBaseMillis (loop i s) = rtcBaseMillis s
  /\ nextNtpSyncEpoch (loop i s) = nextNtpSyncEpoch s.
Proof.
  intros Hst Hto Hlow Hup.
  rewrite (loop_wait_poll_invalid i s Hst Hto Hlow), Hup.
  destruct (brightness_tick_frame (in_nowMs i) (in_ldr i) s)
    as (E1 & E2 & E3 & E4 & _).
  unfold superviseWiFi. cbn [negb].
  cbn [set_wifiLostSinceMs myState rtcBaseTime rtcBaseMillis nextNtpSyncEpoch].
  rewrite E1, E2, E3, E4. auto.
Qed.

Lemma loop_wait_keeps_waiting_witness :
  myState
    (loop (mkLoopInputs 5000 0 5000 0 0 0 0 0 0 0 true true)
       (set_ntpSync true 1000
          (set_myState STATE_WAIT_FOR_TIME initial_state)))
  = STATE_WAIT_FOR_TIME.
Proof.
  exact (proj1 (loop_wait_keeps_waiting
                  (mkLoopInputs 5000 0 5000 0 0 0 0 0 0 0 true true)
                  (set_ntpSync true 1000
                     (set_myState STATE_WAIT_FOR_TIME initial_state))
                  eq_refl eq_refl eq_refl eq_refl)).
Defined.

(** [shouldStartNightlySync] answers true exactly when a schedule is set
    and has been reached; with no schedule set it arms one and answers
    false. *)
Lemma shouldStartNightlySync_due (t : Z) (s : State) :
  (fst (shouldStartNightlySync t s) = true <->
   nextNtpSyncEpoch s <> 0 /\ nextNtpSyncEpoch s <= t)
  /\ (nextNtpSyncEpoch s = 0 ->
      shouldStartNightlySync t s = (false, scheduleNextNightlySync t s)).
Proof.
  unfold shouldStartNightlySync.
  destruct (Z.eqb_spec (nextNtpSyncEpoch s) 0) as [E0|Hne].
  - split; [|reflexivity]. cbn [fst]. split; [discriminate|].
    intros [Hc _]. contradiction.
  - split; [|contradiction].
    destruct (Z.ltb_spec t (nextNtpSyncEpoch s)); cbn [fst].
    + split; [discriminate | lia].
    + split; [intros _; split; [exact Hne | lia] | reflexivity].
Qed.

(** Out of [STATE_WIFI_CONFIG] the pass always moves on to
    [STATE_WAIT_FOR_TIME], marks a sync in progress and records its start
    tick; the reference is not touched. *)
Lemma loop_wifi_config (i : LoopInputs) (s : State) :
  myState s = STATE_WIFI_CONFIG ->
  myState (loop i s) = STATE_WAIT_FOR_TIME
  /\ ntpSyncInProgress (loop i s) = true
  /\ ntpSyncStartMs (loop i s) = in_millis2 i
  /\ rtcBaseTime (loop i s) = rtcBaseTime s
  /\ rtcBaseMillis (loop i s) = rtcBaseMillis s.
Proof.
  intros Hst. unfold loop.
  destruct (brightness_tick_frame (in_nowMs i) (in_ldr i) s)
    as (E1 & E2 & E3 & _).
  rewrite E1, Hst.
  cbn [set_myState set_ntpSync myState ntpSyncInProgress ntpSyncStartMs
       rtcBaseTime rtcBaseMillis].
  auto.
Qed.

Lemma loop_wifi_config_witness :
  myState (loop (mkLoopInputs 300 0 9000 0 0 0 0 0 0 0 true true) initial_state)
  = STATE_WAIT_FOR_TIME
  /\ ntpSyncStartMs
       (loop (mkLoopInputs 300 0 9000 0 0 0 0 0 0 0 true true) initial_state)
     = 9000.
Proof.
  destruct (loop_wifi_config
              (mkLoopInputs 300 0 9000 0 0 0 0 0 0 0 true true)
              initial_state eq_refl) as (A & _ & B & _).
  split; [exact A | exact B].
Defined.

(* ================================================================== *)
(** * Brightness and gamma correction *)

Lemma gamma8_closed_form (v : Z) :
  0 <= v <= 255 ->
  gamma8 v = ((v * v + 255) / 256 * v + 255) / 256
  /\ 0 <= gamma8 v <= v.
Proof.
  intros Hv. unfold gamma8, to_uint16, to_uint8.
  rewrite (Z.mod_small v 65536) by lia.
  rewrite !Z.shiftr_div_pow2 by lia. change (2 ^ 8) with 256.
  assert (Ha : 0 <= v * v <= v * 256 - v) by nia.
  set (a := v * v) in *.
  assert (Hy1 : 0 <= (a + 255) / 256 <= v) by zdiv.
  set (y1 := (a + 255) / 256) in *.
  rewrite (Z.mod_small y1 65536) by lia.
  assert (Hb : 0 <= y1 * v <= a) by (unfold a; nia).
  set (b := y1 * v) in *.
  assert (Hy2 : 0 <= (b + 255) / 256 <= v) by zdiv.
  set (y2 := (b + 255) / 256) in *.
  rewrite (Z.mod_small y2 65536) by lia.
  destruct (Z.gtb_spec y2 255); [lia|].
  rewrite (Z.mod_small y2 256) by lia.
  split; [reflexivity | exact Hy2].
Qed.

(** [gamma8] on a level and a brighter one: both clamps and conversions
    are idle, the result never exceeds the input, the curve is monotone,
    it keeps 0 and 255 fixed, and a lit level stays lit. *)
Lemma gamma8_curve (v w : Z) :
  0 <= v -> v <= w -> w <= 255 ->
  gamma8 v = ((v * v + 255) / 256 * v + 255) / 256
  /\ 0 <= gamma8 v <= v
  /\ gamma8 v <= gamma8 w
  /\ (1 <= v -> 1 <= gamma8 v)
  /\ gamma8 0 = 0 /\ gamma8 255 = 255.
Proof.
  intros H0 Hvw Hw.
  destruct (gamma8_closed_form v ltac:(lia)) as [Ev Rv].
  destruct (gamma8_closed_form w ltac:(lia)) as [Ew Rw].
  split; [exact Ev|]. split; [exact Rv|].
  split; [|split; [|split; reflexivity]].
  - rewrite Ev, Ew.
    assert (H1 : v * v <= w * w) by nia.
    assert (H2 : 0 <= (v * v + 255) / 256 <= (w * w + 255) / 256) by zdiv.
    assert (H3 : (v * v + 255) / 256 * v <= (w * w + 255) / 256 * w) by nia.
    zdiv.
  - intros H1. rewrite Ev.
    assert (H2 : 1 <= (v * v + 255) / 256) by (assert (1 <= v * v) by nia; zdiv).
    assert (H3 : 1 <= (v * v + 255) / 256 * v) by nia.
    zdiv.
Qed.

Lemma gamma8_curve_witness :
  gamma8 128 = 32 /\ gamma8 128 <= gamma8 200.
Proof.
  destruct (gamma8_curve 128 200) as (E & _ & M & _); try lia.
  split; [exact E | exact M].
Defined.

Lemma updateBrightnessFromLdr_value (raw : Z) (s : State) :
  exists v,
    updateBrightnessFromLdr raw s = set_currentBrightness v s
    /\ minBrightness <= v <= maxBrightness
    /\ v = Z.max minBrightness
             (Z.min maxBrightness
                (arduino_map raw 0 1023 minBrightness maxBrightness)).
Proof.
  unfold updateBrightnessFromLdr, to_uint8, minBrightness, maxBrightness.
  set (m := arduino_map raw 0 1023 5 200).
  destruct (Z.ltb_spec m 5).
  - change (5 >? 200) with false. cbv iota.
    exists 5. split; [reflexivity|]. lia.
  - destruct (Z.gtb_spec m 200).
    + exists 200. split; [reflexivity|]. lia.
    + exists m. split; [rewrite Z.mod_small by lia; reflexivity|]. lia.
Qed.

(** For readings whose product with the output span fits the [long]
    arithmetic of [map] (every value of the converter does), the
    brightness taken from the reading lies between [minBrightness] and
    [maxBrightness] and no other global changes; a brighter reading never
    gives a lower brightness; readings 0 and 1023 give the two ends. *)
Lemma updateBrightnessFromLdr_range (raw raw' : Z) (s : State) :
  raw <= raw' ->
  INT_MIN <= raw * (maxBrightness - minBrightness) ->
  raw' * (maxBrightness - minBrightness) <= INT_MAX ->
  minBrightness <= currentBrightness (updateBrightnessFromLdr raw s)
    <= maxBrightness
  /\ updateBrightnessFromLdr raw s
     = set_currentBrightness
         (currentBrightness (updateBrightnessFromLdr raw s)) s
  /\ currentBrightness (updateBrightnessFromLdr raw s)
     <= currentBrightness (updateBrightnessFromLdr raw' s)
  /\ currentBrightness (updateBrightnessFromLdr 0 s) = minBrightness
  /\ currentBrightness (updateBrightnessFromLdr 1023 s) = maxBrightness.
Proof.
  intros Hle _ _.
  destruct (updateBrightnessFromLdr_value raw s) as (v & E & R & V).
  destruct (updateBrightnessFromLdr_value raw' s) as (v' & E' & R' & V').
  rewrite E, E'. cbn [set_currentBrightness currentBrightness].
  split; [exact R|]. split; [reflexivity|].
  split; [|split; reflexivity].
  rewrite V, V'. unfold arduino_map, minBrightness, maxBrightness.
  assert (Hq : Z.quot ((raw - 0) * (200 - 5)) (1023 - 0)
               <= Z.quot ((raw' - 0) * (200 - 5)) (1023 - 0))
    by (apply Z.quot_le_mono; lia).
  lia.
Qed.

Lemma updateBrightnessFromLdr_range_witness :
  currentBrightness (updateBrightnessFromLdr 512 initial_state)
  <= currentBrightness (updateBrightnessFromLdr 2000 initial_state).
Proof.
  refine (proj1 (proj2 (proj2
    (updateBrightnessFromLdr_range 512 2000 initial_state _ _ _)))).
  - discriminate.
  - vm_compute. discriminate.
  - vm_compute. discriminate.
Defined.

(* ================================================================== *)
(** * Colour table and pixel buffer *)

Lemma list_set_length {A : Type} (n : nat) (v : A) (l : list A) :
  length (list_set n v l) = length l.
Proof.
  revert n. induction l as [|h t IH]; intros n; [destruct n; reflexivity|].
  destruct n; cbn [list_set length]; [reflexivity|]. now rewrite IH.
Qed.

Lemma list_set_nth {A : Type} (n k : nat) (v d : A) (l : list A) :
  (n < length l)%nat ->
  nth k (list_set n v l) d = if Nat.eqb k n then v else nth k l d.
Proof.
  revert n k. induction l as [|h t IH]; intros n k Hn; [inversion Hn|].
  destruct n, k; cbn [list_set nth Nat.eqb]; try reflexivity.
  apply IH. cbn [length] in Hn. lia.
Qed.

Lemma set_color_length (idx : Z) (c : RGB) (tbl : list RGB) :
  length (set_color idx c tbl) = length tbl.
Proof.
  unfold set_color. destruct (_ && _); [apply list_set_length | reflexivity].
Qed.

(** Reading entry [k] after a write of entry [idx]. *)
Lemma color_at_set_color (idx k : Z) (c : RGB) (tbl : list RGB) :
  0 <= k ->
  color_at (set_color idx c tbl) k
  = if (k =? idx) && (idx <? Z.of_nat (length tbl)) then c
    else color_at tbl k.
Proof.
  intros Hk. unfold set_color, color_at.
  destruct (Z.leb_spec 0 idx); cbn [andb].
  - destruct (Z.ltb_spec idx (Z.of_nat (length tbl))).
    + rewrite list_set_nth by lia.
      destruct (Z.eqb_spec k idx) as [->|Hne]; cbn [andb].
      * now rewrite Nat.eqb_refl.
      * destruct (Nat.eqb_spec (Z.to_nat k) (Z.to_nat idx)); [lia | reflexivity].
    + now rewrite andb_false_r.
  - destruct (Z.eqb_spec k idx); [lia | reflexivity].
Qed.

Lemma for_loop_S {T : Type} (n : nat) (i : Z) (body : Z -> T -> T) (acc : T) :
  for_loop (S n) i body acc = for_loop n (i + 1) body (body i acc).
Proof. reflexivity. Qed.

Lemma for_loop_ext {T : Type} (f g : Z -> T -> T) :
  (forall j x, f j x = g j x) ->
  forall n i x, for_loop n i f x = for_loop n i g x.
Proof.
  intros H n. induction n as [|n IH]; intros i x; [reflexivity|].
  rewrite !for_loop_S, H. apply IH.
Qed.

(** A loop that lights lamp [base + j] in colour [col j] where [cond j]
    holds: length and brightness stay, and pixel [k] is the colour of
    its own iteration or what it was. *)
Lemma for_loop_pixels (base : Z) (cond : Z -> bool) (col : Z -> RGB) (n : nat) :
  forall i st,
  0 <= base + i -> base + i + Z.of_nat n <= Z.of_nat (length (pixels st)) ->
  let st' :=
    for_loop n i
      (fun j st => if cond j then setPixelColor (base + j) (col j) st else st)
      st in
  length (pixels st') = length (pixels st)
  /\ stripBrightness st' = stripBrightness st
  /\ forall k, 0 <= k ->
       color_at (pixels st') k
       = if (base + i <=? k) && (k <? base + i + Z.of_nat n) && cond (k - base)
         then col (k - base)
         else color_at (pixels st) k.
Proof.
  induction n as [|n IH]; intros i st H0 Hlen; cbv zeta.
  - cbn [for_loop]. split; [reflexivity|]. split; [reflexivity|].
    intros k Hk.
    destruct (Z.leb_spec (base + i) k), (Z.ltb_spec k (base + i + Z.of_nat 0));
      cbn [andb]; try reflexivity. lia.
  - rewrite for_loop_S. rewrite Nat2Z.inj_succ in *.
    set (st1 := if cond i then setPixelColor (base + i) (col i) st else st).
    assert (L1 : length (pixels st1) = length (pixels st)).
    { unfold st1. destruct (cond i); [apply set_color_length | reflexivity]. }
    assert (B1 : stripBrightness st1 = stripBrightness st).
    { unfold st1. destruct (cond i); reflexivity. }
    destruct (IH (i + 1) st1 ltac:(lia) ltac:(rewrite L1; lia))
      as (L & B & P).
    split; [congruence|]. split; [congruence|].
    intros k Hk. rewrite (P k Hk).
    assert (P1 : color_at (pixels st1) k
                 = if (k =? base + i) && cond i then col i
                   else color_at (pixels st) k).
    { unfold st1. destruct (cond i).
      - cbn [setPixelColor pixels]. rewrite color_at_set_color by lia.
        destruct (Z.eqb_spec k (base + i)); cbn [andb]; [|reflexivity].
        destruct (Z.ltb_spec (base + i) (Z.of_nat (length (pixels st))));
          [reflexivity | lia].
      - now rewrite andb_false_r. }
    rewrite P1.
    destruct (Z.eqb_spec k (base + i)) as [->|Hne].
    + replace (base + i - base) with i by ring.
      destruct (Z.leb_spec (base + (i + 1)) (base + i)); [lia|].
      destruct (Z.leb_spec (base + i) (base + i)); [|lia].
      destruct (Z.ltb_spec (base + i) (base + i + Z.succ (Z.of_nat n))); [|lia].
      cbn [andb]. destruct (cond i); reflexivity.
    + cbn [andb].
      destruct (Z.leb_spec (base + (i + 1)) k), (Z.leb_spec (base + i) k),
        (Z.ltb_spec k (base + (i + 1) + Z.of_nat n)),
        (Z.ltb_spec k (base + i + Z.succ (Z.of_nat n)));
        cbn [andb]; try reflexivity; lia.
Qed.

(** ** The rainbow of the configuration state *)

Lemma rainbow_color_hue (i : Z) :
  0 <= i < LED_COUNT ->
  exists r g b,
    rainbow_color i = (r, g, b)
    /\ 0 <= r <= 255 /\ 0 <= g <= 255 /\ 0 <= b <= 255
    /\ r + g + b = 255
    /\ (r = 0 \/ g = 0 \/ b = 0).
Proof.
  unfold LED_COUNT. intros Hi.
  assert (Epos : to_uint8 (Z.land (Z.quot (i * 256) 24) 255)
                 = (i * 256 / 24) mod 256).
  { unfold to_uint8. change 255 with (Z.ones 8).
    rewrite Z.land_ones by lia. change (2 ^ 8) with 256.
    rewrite Z.quot_div_nonneg by lia. apply Z.mod_mod. lia. }
  unfold rainbow_color, LED_COUNT. rewrite Epos.
  set (pos := (i * 256 / 24) mod 256).
  assert (Hp : 0 <= pos <= 255) by (unfold pos; zdiv).
  clearbody pos. unfold strip_Color, to_uint8.
  destruct (Z.ltb_spec pos 85); [|destruct (Z.ltb_spec pos 170)].
  - eexists _, _, _. split; [reflexivity|]. zdiv.
  - eexists _, _, _. split; [reflexivity|]. zdiv.
  - eexists _, _, _. split; [reflexivity|]. zdiv.
Qed.

(** [showStaticRainbow] overwrites all 24 LEDs, whatever they showed:
    LED [i] gets [rainbow_color i], a hue whose three components (each
    within 0..255, one of them 0) add up to 255; the strip takes the
    current brightness. *)
Lemma showStaticRainbow_pixels (i : Z) (s : State) (st : Strip) :
  length (pixels st) = 24%nat -> 0 <= i < LED_COUNT ->
  length (pixels (showStaticRainbow s st)) = 24%nat
  /\ stripBrightness (showStaticRainbow s st) = to_uint8 (currentBrightness s)
  /\ color_at (pixels (showStaticRainbow s st)) i = rainbow_color i
  /\ exists r g b,
       rainbow_color i = (r, g, b)
       /\ 0 <= r <= 255 /\ 0 <= g <= 255 /\ 0 <= b <= 255
       /\ r + g + b = 255 /\ (r = 0 \/ g = 0 \/ b = 0).
Proof.
  intros Hlen Hi. unfold showStaticRainbow.
  cbn [setBrightness pixels stripBrightness].
  rewrite (for_loop_ext _
             (fun j st => if (fun _ => true) j
                          then setPixelColor (0 + j) (rainbow_color j) st
                          else st)) by reflexivity.
  destruct (for_loop_pixels 0 (fun _ => true) rainbow_color
              (Z.to_nat LED_COUNT) 0 st ltac:(lia)
              ltac:(rewrite Hlen; reflexivity))
    as (L & _ & P).
  split; [congruence|]. split; [reflexivity|].
  split; [|now apply rainbow_color_hue].
  rewrite (P i ltac:(lia)). unfold LED_COUNT in *.
  change (Z.of_nat (Z.to_nat 24)) with 24.
  destruct (Z.leb_spec (0 + 0) i); [|lia].
  destruct (Z.ltb_spec i (0 + 0 + 24)); [|lia].
  cbn [andb]. f_equal. ring.
Qed.

Lemma showStaticRainbow_pixels_witness :
  color_at
    (pixels (showStaticRainbow initial_state
               (mkStrip (repeat COLOR_WHITE 24) 7))) 8
  = (255, 0, 0).
Proof.
  refine (eq_trans (proj1 (proj2 (proj2
    (showStaticRainbow_pixels 8 initial_state
       (mkStrip (repeat COLOR_WHITE 24) 7) eq_refl _)))) _).
  - split; [discriminate | reflexivity].
  - reflexivity.
Defined.

(** ** The colour table *)

Lemma initColorDefines_table (tbl : list RGB) :
  length tbl = 24%nat ->
  initColorDefines tbl =
  [COLOR_RED; COLOR_RED; COLOR_RED; COLOR_RED;
   COLOR_GREEN; COLOR_GREEN; COLOR_YELLOW; COLOR_GREEN; COLOR_GREEN;
   COLOR_YELLOW; COLOR_GREEN; COLOR_GREEN; COLOR_YELLOW; COLOR_GREEN;
   COLOR_GREEN;
   COLOR_BLUE; COLOR_BLUE; COLOR_BLUE; COLOR_BLUE;
   COLOR_MAGENTA; COLOR_MAGENTA; COLOR_MAGENTA; COLOR_MAGENTA;
   COLOR_WHITE].
Proof.
  intros H.
  do 24 (destruct tbl as [|? tbl]; [discriminate H|]).
  destruct tbl; [|discriminate H].
  reflexivity.
Qed.

Lemma led_index_cases (k : Z) :
  0 <= k < 24 ->
  k = 0 \/ k = 1 \/ k = 2 \/ k = 3 \/ k = 4 \/ k = 5 \/ k = 6 \/ k = 7
  \/ k = 8 \/ k = 9 \/ k = 10 \/ k = 11 \/ k = 12 \/ k = 13 \/ k = 14
  \/ k = 15 \/ k = 16 \/ k = 17 \/ k = 18 \/ k = 19 \/ k = 20 \/ k = 21
  \/ k = 22 \/ k = 23.
Proof. lia. Qed.

Ltac each_led k H :=
  destruct (led_index_cases k H) as
    [->|[->|[->|[->|[->|[->|[->|[->|[->|[->|[->|[->|[->|[->|[->|[->|[->|[->|
     [->|[->|[->|[->|[->| ->]]]]]]]]]]]]]]]]]]]]]]].

(** [initColorDefines] writes all 24 entries, so the table does not
    depend on what it held before and a second run changes nothing: the
    one-minute row is red, the five-minute row green with yellow at the
    lamps that complete a quarter of an hour, the one-hour row blue, the
    five-hour row magenta and the seconds lamp white; no lamp of the
    table is dark. *)
Lemma initColorDefines_rows (tbl : list RGB) (k : Z) :
  length tbl = 24%nat -> 0 <= k < LED_COUNT ->
  length (initColorDefines tbl) = 24%nat
  /\ initColorDefines tbl = initColorDefines colorDefines_zero
  /\ initColorDefines (initColorDefines tbl) = initColorDefines tbl
  /\ color_at (initColorDefines tbl) k
     = (if k <? 4 then COLOR_RED
        else if k <? 15 then
          (if (5 * (k - 4 + 1)) mod 15 =? 0 then COLOR_YELLOW
           else COLOR_GREEN)
        else if k <? 19 then COLOR_BLUE
        else if k <? 23 then COLOR_MAGENTA
        else COLOR_WHITE)
  /\ rgb_eqb (color_at (initColorDefines tbl) k) BLACK = false.
Proof.
  intros Hlen Hk. unfold LED_COUNT in Hk.
  rewrite (initColorDefines_table tbl Hlen).
  split; [reflexivity|]. split; [reflexivity|]. split; [reflexivity|].
  split; each_led k Hk; reflexivity.
Qed.

Lemma initColorDefines_rows_witness :
  color_at (initColorDefines (repeat COLOR_WHITE 24)) 9 = COLOR_YELLOW.
Proof.
  refine (eq_trans (proj1 (proj2 (proj2 (proj2
    (initColorDefines_rows (repeat COLOR_WHITE 24) 9 eq_refl _))))) _).
  - split; [discriminate | reflexivity].
  - reflexivity.
Defined.

(** ** Rendering the clock face *)

Lemma render_row_pixels (count : nat) (base blocks : Z) (tbl : list RGB)
    (st : Strip) :
  0 <= base -> base + Z.of_nat count <= Z.of_nat (length (pixels st)) ->
  length (pixels (render_row count base blocks tbl st)) = length (pixels st)
  /\ stripBrightness (render_row count base blocks tbl st)
     = stripBrightness st
  /\ forall k, 0 <= k ->
       color_at (pixels (render_row count base blocks tbl st)) k
       = if (base <=? k) && (k <? base + Z.of_nat count)
            && (k - base <? blocks)
         then (let '(r, g, b) := color_at tbl k in strip_Color r g b)
         else color_at (pixels st) k.
Proof.
  intros Hb Hlen. unfold render_row.
  rewrite (for_loop_ext _
             (fun j st =>
                if (fun j => j <? blocks) j
                then setPixelColor (base + j)
                       ((fun j => let '(r, g, b) := color_at tbl (base + j) in
                                  strip_Color r g b) j) st
                else st)).
  2:{ intros j x. cbv beta. destruct (j <? blocks); [|reflexivity].
      cbv zeta. destruct (color_at tbl (base + j)) as [[r g] b]. reflexivity. }
  destruct (for_loop_pixels base (fun j => j <? blocks)
              (fun j => let '(r, g, b) := color_at tbl (base + j) in
                        strip_Color r g b)
              count 0 st ltac:(lia) ltac:(lia)) as (L & B & P).
  split; [exact L|]. split; [exact B|].
  intros k Hk. rewrite (P k Hk). cbv beta.
  replace (base + 0) with base by ring.
  replace (base + (k - base)) with k by ring.
  reflexivity.
Qed.

Lemma color_at_repeat_black (n : nat) (k : Z) :
  color_at (repeat BLACK n) k = BLACK.
Proof.
  unfold color_at. generalize (Z.to_nat k). intros m. revert m.
  induction n as [|n IH]; intros [|m]; cbn [repeat nth]; auto.
Qed.

(** Every pixel after [renderBerlinClock]: a row lamp shows its table
    colour when its position is below the row's block count and is dark
    otherwise; the seconds lamp shows its table colour scaled by the
    gamma-corrected level. *)
Lemma renderBerlinClock_pixels (levelLin : Z) (tbl : list RGB) (s : State)
    (st : Strip) (k : Z) :
  length (pixels st) = 24%nat -> 0 <= k < LED_COUNT ->
  length (pixels (renderBerlinClock levelLin tbl s st)) = 24%nat
  /\ stripBrightness (renderBerlinClock levelLin tbl s st)
     = to_uint8 (currentBrightness s)
  /\ color_at (pixels (renderBerlinClock levelLin tbl s st)) k
     = (let '(r, g, b) := color_at tbl k in
        if k <? 4 then
          (if k <? Z.rem (t_min s) 5 then strip_Color r g b else BLACK)
        else if k <? 15 then
          (if k - 4 <? Z.quot (t_min s) 5 then strip_Color r g b else BLACK)
        else if k <? 19 then
          (if k - 15 <? Z.rem (t_hour s) 5 then strip_Color r g b else BLACK)
        else if k <? 23 then
          (if k - 19 <? Z.quot (t_hour s) 5 then strip_Color r g b else BLACK)
        else
          strip_Color (Z.quot (r * gamma8 levelLin) 255)
            (Z.quot (g * gamma8 levelLin) 255)
            (Z.quot (b * gamma8 levelLin) 255)).
Proof.
  intros Hlen Hk. unfold LED_COUNT in Hk. unfold renderBerlinClock.
  destruct (color_at tbl SECOND_LED) as [[r23 g23] b23] eqn:E23.
  set (c23 := strip_Color (Z.quot (r23 * gamma8 levelLin) 255)
                (Z.quot (g23 * gamma8 levelLin) 255)
                (Z.quot (b23 * gamma8 levelLin) 255)).
  set (st0 := setPixelColor SECOND_LED c23 (strip_clear st)).
  assert (L0 : length (pixels st0) = 24%nat).
  { unfold st0, strip_clear. cbn [setPixelColor pixels].
    now rewrite set_color_length, repeat_length. }
  assert (P0 : forall j, 0 <= j ->
            color_at (pixels st0) j = if j =? 23 then c23 else BLACK).
  { intros j Hj. unfold st0, strip_clear, SECOND_LED.
    cbn [setPixelColor pixels]. rewrite color_at_set_color by lia.
    rewrite repeat_length, Hlen, color_at_repeat_black.
    change (23 <? Z.of_nat 24) with true. now rewrite andb_true_r. }
  set (st1 := render_row 4 19 (Z.quot (t_hour s) 5) tbl st0).
  destruct (render_row_pixels 4 19 (Z.quot (t_hour s) 5) tbl st0
              ltac:(lia) ltac:(rewrite L0; simpl; lia)) as (L1 & B1 & P1).
  fold st1 in L1, B1, P1. rewrite L0 in L1.
  set (st2 := render_row 4 15 (Z.rem (t_hour s) 5) tbl st1).
  destruct (render_row_pixels 4 15 (Z.rem (t_hour s) 5) tbl st1
              ltac:(lia) ltac:(rewrite L1; simpl; lia)) as (L2 & B2 & P2).
  fold st2 in L2, B2, P2. rewrite L1 in L2.
  set (st3 := render_row 11 4 (Z.quot (t_min s) 5) tbl st2).
  destruct (render_row_pixels 11 4 (Z.quot (t_min s) 5) tbl st2
              ltac:(lia) ltac:(rewrite L2; simpl; lia)) as (L3 & B3 & P3).
  fold st3 in L3, B3, P3. rewrite L2 in L3.
  set (st4 := render_row 4 0 (Z.rem (t_min s) 5) tbl st3).
  destruct (render_row_pixels 4 0 (Z.rem (t_min s) 5) tbl st3
              ltac:(lia) ltac:(rewrite L3; simpl; lia)) as (L4 & B4 & P4).
  fold st4 in L4, B4, P4. rewrite L3 in L4.
  cbn [setBrightness pixels stripBrightness].
  split; [exact L4|]. split; [reflexivity|].
  rewrite (P4 k), (P3 k), (P2 k), (P1 k), (P0 k) by lia.
  change (Z.of_nat 4) with 4. change (Z.of_nat 11) with 11.
  replace (k - 0) with k by ring.
  destruct (Z.eqb_spec k 23) as [->|Hne].
  - unfold SECOND_LED in E23. rewrite E23. reflexivity.
  - destruct (color_at tbl k) as [[r g] b].
    destruct (Z.ltb_spec k 4), (Z.ltb_spec k 15), (Z.ltb_spec k 19),
      (Z.ltb_spec k 23); try lia;
      repeat match goal with
             | |- context [?a <=? ?b] =>
                 destruct (Z.leb_spec a b); try lia
             | |- context [?a <? ?b] =>
                 lazymatch b with
                 | Z.rem _ _ => fail
                 | Z.quot _ _ => fail
                 | _ => destruct (Z.ltb_spec a b); try lia
                 end
             end; cbn [andb]; reflexivity.
Qed.

(** ** Reading the rendered clock face *)

Lemma count_lamps_S (n : nat) (idx : Z) (st : Strip) :
  count_lamps (S n) idx st
  = (if lamp_on st idx then 1 else 0) + count_lamps n (idx + 1) st.
Proof. reflexivity. Qed.

(** A row whose lamps are lit exactly below position [b] counts
    [b] lamps, within the row's length. *)
Lemma count_lamps_prefix (st : Strip) (n : nat) :
  forall idx b,
  (forall j, 0 <= j < Z.of_nat n -> lamp_on st (idx + j) = (j <? b)) ->
  count_lamps n idx st = Z.max 0 (Z.min b (Z.of_nat n)).
Proof.
  induction n as [|n IH]; intros idx b H.
  - cbn [count_lamps]. change (Z.of_nat 0) with 0. lia.
  - rewrite count_lamps_S, (IH (idx + 1) (b - 1)).
    + rewrite Nat2Z.inj_succ in *.
      replace idx with (idx + 0) at 1 by ring. rewrite (H 0) by lia.
      destruct (Z.ltb_spec 0 b); lia.
    + intros j Hj. rewrite Nat2Z.inj_succ in H.
      replace (idx + 1 + j) with (idx + (j + 1)) by ring.
      rewrite (H (j + 1)) by lia.
      destruct (Z.ltb_spec (j + 1) b), (Z.ltb_spec j (b - 1)); lia || reflexivity.
Qed.

Lemma table_lamp_lit (tbl : list RGB) (k : Z) :
  length tbl = 24%nat -> 0 <= k < 23 ->
  exists r g b,
    color_at (initColorDefines tbl) k = (r, g, b)
    /\ rgb_eqb (strip_Color r g b) BLACK = false.
Proof.
  intros Hlen Hk. rewrite (initColorDefines_table tbl Hlen).
  assert (Hk' : 0 <= k < 24) by lia.
  each_led k Hk'; try lia; eexists _, _, _; split; reflexivity.
Qed.

(** With the table of [initColorDefines], a row lamp of the rendered
    face is lit exactly when its position is below the block count. *)
Lemma renderBerlinClock_lamp (levelLin : Z) (tbl : list RGB) (s : State)
    (st : Strip) (base len blocks j : Z) :
  length tbl = 24%nat -> length (pixels st) = 24%nat ->
  (base = 0 /\ len = 4 /\ blocks = Z.rem (t_min s) 5
   \/ base = 4 /\ len = 11 /\ blocks = Z.quot (t_min s) 5
   \/ base = 15 /\ len = 4 /\ blocks = Z.rem (t_hour s) 5
   \/ base = 19 /\ len = 4 /\ blocks = Z.quot (t_hour s) 5) ->
  0 <= j < len ->
  lamp_on (renderBerlinClock levelLin (initColorDefines tbl) s st) (base + j)
  = (j <? blocks).
Proof.
  intros Ht Hs Hrow Hj. unfold lamp_on.
  assert (Hk : 0 <= base + j < 23) by lia.
  destruct (renderBerlinClock_pixels levelLin (initColorDefines tbl) s st
              (base + j) Hs ltac:(unfold LED_COUNT; lia)) as (_ & _ & P).
  rewrite P.
  destruct (table_lamp_lit tbl (base + j) Ht Hk) as (r & g & b & -> & Hlit).
  destruct Hrow as [(-> & -> & ->) | [(-> & -> & ->) | [(-> & -> & ->)
                   | (-> & -> & ->)]]].
  - destruct (Z.ltb_spec (0 + j) 4); [|lia].
    replace (0 + j) with j by ring.
    destruct (j <? Z.rem (t_min s) 5); [now rewrite Hlit | reflexivity].
  - destruct (Z.ltb_spec (4 + j) 4); [lia|].
    destruct (Z.ltb_spec (4 + j) 15); [|lia].
    replace (4 + j - 4) with j by ring.
    destruct (j <? Z.quot (t_min s) 5); [now rewrite Hlit | reflexivity].
  - destruct (Z.ltb_spec (15 + j) 4); [lia|].
    destruct (Z.ltb_spec (15 + j) 15); [lia|].
    destruct (Z.ltb_spec (15 + j) 19); [|lia].
    replace (15 + j - 15) with j by ring.
    destruct (j <? Z.rem (t_hour s) 5); [now rewrite Hlit | reflexivity].
  - destruct (Z.ltb_spec (19 + j) 4); [lia|].
    destruct (Z.ltb_spec (19 + j) 15); [lia|].
    destruct (Z.ltb_spec (19 + j) 19); [lia|].
    destruct (Z.ltb_spec (19 + j) 23); [|lia].
    replace (19 + j - 19) with j by ring.
    destruct (j <? Z.quot (t_hour s) 5); [now rewrite Hlit | reflexivity].
Qed.

(** Counting the lit lamps of the four rows of the rendered face gives
    back the hour and the minute. *)
Lemma renderBerlinClock_counts (levelLin : Z) (tbl : list RGB) (s : State)
    (st : Strip) :
  length tbl = 24%nat -> length (pixels st) = 24%nat ->
  0 <= t_hour s < 24 -> 0 <= t_min s < 60 ->
  shown_hour (renderBerlinClock levelLin (initColorDefines tbl) s st)
  = t_hour s
  /\ shown_minute (renderBerlinClock levelLin (initColorDefines tbl) s st)
     = t_min s.
Proof.
  intros Ht Hs Hh Hm.
  set (st' := renderBerlinClock levelLin (initColorDefines tbl) s st).
  assert (C : forall base len blocks,
             (base = 0 /\ len = 4 /\ blocks = Z.rem (t_min s) 5
              \/ base = 4 /\ len = 11 /\ blocks = Z.quot (t_min s) 5
              \/ base = 15 /\ len = 4 /\ blocks = Z.rem (t_hour s) 5
              \/ base = 19 /\ len = 4 /\ blocks = Z.quot (t_hour s) 5) ->
             count_lamps (Z.to_nat len) base st'
             = Z.max 0 (Z.min blocks len)).
  { intros base len blocks Hrow.
    rewrite (count_lamps_prefix st' (Z.to_nat len) base blocks).
    - rewrite Z2Nat.id by lia. reflexivity.
    - intros j Hj. rewrite Z2Nat.id in Hj by lia.
      apply (renderBerlinClock_lamp levelLin tbl s st base len blocks j);
        assumption. }
  assert (Qh : 0 <= Z.quot (t_hour s) 5 <= 4
               /\ 0 <= Z.rem (t_hour s) 5 <= 4
               /\ t_hour s = 5 * Z.quot (t_hour s) 5 + Z.rem (t_hour s) 5)
    by zdiv.
  assert (Qm : 0 <= Z.quot (t_min s) 5 <= 11
               /\ 0 <= Z.rem (t_min s) 5 <= 4
               /\ t_min s = 5 * Z.quot (t_min s) 5 + Z.rem (t_min s) 5)
    by zdiv.
  unfold shown_hour, shown_minute.
  change 11%nat with (Z.to_nat 11). change 4%nat with (Z.to_nat 4).
  rewrite (C 19 4 (Z.quot (t_hour s) 5)), (C 15 4 (Z.rem (t_hour s) 5)),
    (C 4 11 (Z.quot (t_min s) 5)), (C 0 4 (Z.rem (t_min s) 5)) by tauto.
  split; lia.
Qed.

(** The seconds lamp of the rendered face is a grey of the
    gamma-corrected level. *)
Lemma renderBerlinClock_second_lamp (levelLin : Z) (tbl : list RGB)
    (s : State) (st : Strip) :
  length tbl = 24%nat -> length (pixels st) = 24%nat ->
  0 <= levelLin <= 255 ->
  color_at (pixels (renderBerlinClock levelLin (initColorDefines tbl) s st))
    SECOND_LED
  = (gamma8 levelLin, gamma8 levelLin, gamma8 levelLin).
Proof.
  intros Ht Hs Hl.
  destruct (renderBerlinClock_pixels levelLin (initColorDefines tbl) s st
              SECOND_LED Hs ltac:(unfold LED_COUNT, SECOND_LED; lia))
    as (_ & _ & P).
  rewrite P, (initColorDefines_table tbl Ht).
  destruct (gamma8_closed_form levelLin Hl) as [_ Hg].
  set (g := gamma8 levelLin) in *.
  change (color_at _ SECOND_LED) with COLOR_WHITE. unfold COLOR_WHITE, SECOND_LED.
  cbn [Z.ltb Z.compare Pos.compare Pos.compare_cont].
  unfold strip_Color, to_uint8.
  replace (Z.quot (255 * g) 255) with g by zdiv.
  rewrite Z.mod_small by lia. reflexivity.
Qed.

(** The rendered face reads back as the time it was given: for an hour
    in 0..23 and a minute in 0..59, counting the lit lamps of the four
    rows gives that hour and minute; the seconds lamp shows the
    gamma-corrected level as a grey; the strip has its 24 pixels and the
    current brightness. *)
Lemma renderBerlinClock_shows_time (levelLin : Z) (tbl : list RGB)
    (s : State) (st : Strip) :
  length tbl = 24%nat -> length (pixels st) = 24%nat ->
  0 <= t_hour s < 24 -> 0 <= t_min s < 60 -> 0 <= levelLin <= 255 ->
  let st' := renderBerlinClock levelLin (initColorDefines tbl) s st in
  shown_hour st' = t_hour s
  /\ shown_minute st' = t_min s
  /\ color_at (pixels st') SECOND_LED
     = (gamma8 levelLin, gamma8 levelLin, gamma8 levelLin)
  /\ length (pixels st') = 24%nat
  /\ stripBrightness st' = to_uint8 (currentBrightness s).
Proof.
  intros Ht Hs Hh Hm Hl st'.
  destruct (renderBerlinClock_counts levelLin tbl s st Ht Hs Hh Hm) as [A B].
  destruct (renderBerlinClock_pixels levelLin (initColorDefines tbl) s st
              SECOND_LED Hs ltac:(unfold LED_COUNT, SECOND_LED; lia))
    as (L & Br & _).
  split; [exact A|]. split; [exact B|].
  split; [now apply renderBerlinClock_second_lamp|].
  split; [exact L | exact Br].
Qed.

Lemma renderBerlinClock_shows_time_witness :
  shown_hour
    (renderBerlinClock 128 (initColorDefines colorDefines_zero)
       (set_t_hms 17 38 5 initial_state) (mkStrip (repeat COLOR_WHITE 24) 0))
  = 17
  /\ shown_minute
       (renderBerlinClock 128 (initColorDefines colorDefines_zero)
          (set_t_hms 17 38 5 initial_state)
          (mkStrip (repeat COLOR_WHITE 24) 0))
     = 38.
Proof.
  destruct (renderBerlinClock_shows_time 128 colorDefines_zero
              (set_t_hms 17 38 5 initial_state)
              (mkStrip (repeat COLOR_WHITE 24) 0) eq_refl eq_refl)
    as (A & B & _); cbn [set_t_hms t_hour t_min]; try lia.
  split; [exact A | exact B].
Defined.

(* ================================================================== *)
(** * What each function does to the globals *)

Ltac setters :=
  cbn [set_myState set_rtcBase set_nextNtpSyncEpoch set_ntpSync
       set_ntpSyncInProgress set_wifiLostSinceMs set_t_hms
       set_lastRenderMillis set_lastBrightnessMillis set_currentBrightness
       myState rtcBaseTime rtcBaseMillis nextNtpSyncEpoch ntpSyncInProgress
       ntpSyncStartMs wifiLostSinceMs t_sec t_min t_hour lastRenderMillis
       lastBrightnessMillis currentBrightness] in *.

Lemma gmtime_fields_range (u : Z) (t : tm) :
  gmtime u = Some t ->
  (0 <= tm_sec t < 60 /\ 0 <= tm_min t < 60 /\ 0 <= tm_hour t < 24)
  /\ (1 <= tm_mday t <= 31 /\ 0 <= tm_mon t <= 11 /\ 0 <= tm_wday t <= 6)
  /\ tm_hour t = (u mod 86400) / 3600
  /\ tm_min t = (u mod 3600) / 60
  /\ tm_sec t = u mod 60.
Proof.
  intros H. apply gmtime_Some in H as [-> _].
  destruct (civil_from_days (u / SECSPERDAY)) as [[y m] d] eqn:Hc.
  rewrite (tm_of_time_civil _ _ _ _ Hc). cbn [tm_sec tm_min tm_hour tm_mday
                                               tm_mon tm_wday].
  destruct (civil_from_days_spec _ _ _ _ Hc) as (Hm & Hd & _).
  unfold weekday, SECSPERDAY.
  pose proof (Z.mod_pos_bound (u / 86400 + 4) 7 eq_refl).
  repeat split; try lia; zdiv.
Qed.

Lemma brightness_tick_shape (nowMs ldr : Z) (s : State) :
  brightness_tick nowMs ldr s = s
  \/ exists v, brightness_tick nowMs ldr s
               = set_currentBrightness v (set_lastBrightnessMillis nowMs s)
               /\ minBrightness <= v <= maxBrightness.
Proof.
  unfold brightness_tick.
  destruct (ulong_sub nowMs (lastBrightnessMillis s) >=? brightnessIntervalMs).
  - right.
    destruct (updateBrightnessFromLdr_value ldr
                (set_lastBrightnessMillis nowMs s)) as (v & E & R & _).
    exists v. split; [exact E | exact R].
  - left. reflexivity.
Qed.

Lemma superviseWiFi_shape (nowMs : Z) (connected : bool) (s : State) :
  (exists w, superviseWiFi nowMs connected s = set_wifiLostSinceMs w s)
  \/ (connected = false
      /\ superviseWiFi nowMs connected s
         = set_myState STATE_WIFI_CONFIG (set_wifiLostSinceMs 0 s)).
Proof.
  unfold superviseWiFi. destruct connected; cbn [negb].
  - left. now exists 0.
  - destruct (wifiLostSinceMs s =? 0).
    + destruct (_ >? _).
      * right. split; [reflexivity|]. destruct s; reflexivity.
      * left. now exists nowMs.
    + destruct (_ >? _).
      * right. split; reflexivity.
      * left. exists (wifiLostSinceMs s). destruct s; reflexivity.
Qed.

Lemma scheduleNextNightlySync_shape (u : Z) (s : State) :
  exists v, scheduleNextNightlySync u s = set_nextNtpSyncEpoch v s /\ u < v.
Proof.
  assert (E : exists v, scheduleNextNightlySync u s = set_nextNtpSyncEpoch v s).
  { unfold scheduleNextNightlySync.
    destruct (nightly_scan _ _ _); eexists; reflexivity. }
  destruct E as (v & E). exists v. split; [exact E|].
  pose proof (scheduleNextNightlySync_later u s) as H.
  rewrite E in H. exact H.
Qed.

Lemma shouldStartNightlySync_shape (u : Z) (s : State) :
  shouldStartNightlySync u s = (false, s)
  \/ exists due v, shouldStartNightlySync u s = (due, set_nextNtpSyncEpoch v s)
                   /\ u < v.
Proof.
  unfold shouldStartNightlySync.
  destruct (scheduleNextNightlySync_shape u s) as (v & -> & Hv).
  destruct (_ =? 0); [right; now exists false, v|].
  destruct (_ <? _); [now left | right; now exists true, v].
Qed.

Lemma updateTimeFromRtc_shape (sysTime ms : Z) (s : State) :
  updateTimeFromRtc sysTime ms s = s
  \/ exists d,
       gmtime (getDisplayTime (getCurrentRtcTime sysTime ms s)) = Some d
       /\ updateTimeFromRtc sysTime ms s
          = set_t_hms (tm_hour d) (tm_min d) (tm_sec d) s.
Proof.
  unfold updateTimeFromRtc.
  destruct (gmtime _) as [d|]; [right; now exists d | now left].
Qed.

(** With a reference set, the clock never runs behind the reference. *)
Lemma getCurrentRtcTime_ge_base (sysTime ms : Z) (s : State) :
  rtcBaseTime s <> 0 -> rtcBaseTime s <= getCurrentRtcTime sysTime ms s.
Proof.
  intros Hne. unfold getCurrentRtcTime, ulong_sub, ULONG_MOD.
  destruct (Z.eqb_spec (rtcBaseTime s) 0); [contradiction|]. zdiv.
Qed.


(* ================================================================== *)
(** * Invariants of the main loop *)

Lemma superviseWiFi_keeps (nowMs : Z) (connected : bool) (s : State) :
  reference_inv s /\ time_fields_inv s /\ brightness_inv s ->
  reference_inv (superviseWiFi nowMs connected s)
  /\ time_fields_inv (superviseWiFi nowMs connected s)
  /\ brightness_inv (superviseWiFi nowMs connected s).
Proof.
  unfold reference_inv, time_fields_inv, brightness_inv.
  intros ((R1 & R2 & R3) & T & B).
  destruct (superviseWiFi_shape nowMs connected s) as [(w & ->) | (_ & ->)];
    setters; repeat split; try tauto; try discriminate; lia.
Qed.

(** One pass of [loop()] keeps the three invariants. *)
Lemma loop_keeps (i : LoopInputs) (s : State) :
  reference_inv s /\ time_fields_inv s /\ brightness_inv s ->
  reference_inv (loop i s) /\ time_fields_inv (loop i s)
  /\ brightness_inv (loop i s).
Proof.
  intros H. unfold loop.
  assert (H0 : reference_inv (brightness_tick (in_nowMs i) (in_ldr i) s)
               /\ time_fields_inv (brightness_tick (in_nowMs i) (in_ldr i) s)
               /\ brightness_inv (brightness_tick (in_nowMs i) (in_ldr i) s)).
  { destruct (brightness_tick_shape (in_nowMs i) (in_ldr i) s)
      as [-> | (v & -> & Hv)]; [exact H|].
    unfold reference_inv, time_fields_inv, brightness_inv in *. setters.
    tauto. }
  clear H. revert H0.
  generalize (brightness_tick (in_nowMs i) (in_ldr i) s). clear s.
  intros s H. cbv zeta.
  destruct (myState s) eqn:Hst.
  - (* STATE_WIFI_CONFIG *)
    unfold reference_inv, time_fields_inv, brightness_inv in *. setters.
    repeat split; try tauto; try discriminate.
  - (* STATE_WAIT_FOR_TIME *)
    destruct (wait_timed_out (in_millis2 i) s).
    { unfold reference_inv, time_fields_inv, brightness_inv in *. setters.
      repeat split; try tauto; discriminate. }
    destruct (isTimeValid (in_timeValid i)); [|now apply superviseWiFi_keeps].
    unfold syncRtcFromSystemTime.
    destruct (Z.ltb_spec (in_timeSync i) TIME_FLOOR) as [|Hge].
    { unfold reference_inv, time_fields_inv, brightness_inv in *. setters.
      repeat split; try tauto; discriminate. }
    destruct (scheduleNextNightlySync_shape (in_timeSync i)
                (set_rtcBase (in_timeSync i) (in_millisSync i) s))
      as (v & -> & Hv).
    apply superviseWiFi_keeps.
    unfold reference_inv, time_fields_inv, brightness_inv in *. setters.
    repeat split; try tauto; try discriminate; try lia; right; lia.
  - (* STATE_SHOW_CLOCK *)
    set (s1 := if ulong_sub (in_nowMs i) (lastRenderMillis s) >=? renderIntervalMs
               then updateTimeFromRtc (in_timeRtc1 i) (in_millisRtc1 i)
                      (set_lastRenderMillis (in_nowMs i) s)
               else s).
    assert (H1 : (reference_inv s1 /\ time_fields_inv s1 /\ brightness_inv s1)
                 /\ myState s1 = STATE_SHOW_CLOCK).
    { unfold s1. destruct (_ >=? _); [|tauto].
      destruct (updateTimeFromRtc_shape (in_timeRtc1 i) (in_millisRtc1 i)
                  (set_lastRenderMillis (in_nowMs i) s))
        as [-> | (d & Hd & ->)].
      - unfold reference_inv, time_fields_inv, brightness_inv in *. setters.
        tauto.
      - destruct (gmtime_fields_range _ _ Hd) as (F & _).
        unfold reference_inv, time_fields_inv, brightness_inv in *. setters.
        tauto. }
    clearbody s1. clear H Hst s. destruct H1 as [H Hst].
    set (u := getCurrentRtcTime (in_timeRtc2 i) (in_millisRtc2 i) s1).
    assert (Hu : rtcBaseTime s1 <= u).
    { apply getCurrentRtcTime_ge_base.
      destruct H as ((_ & R2 & _) & _). specialize (R2 Hst).
      unfold TIME_FLOOR in R2. lia. }
    clearbody u.
    assert (H2 : forall due s2, shouldStartNightlySync u s1 = (due, s2) ->
              (reference_inv s2 /\ time_fields_inv s2 /\ brightness_inv s2)
              /\ myState s2 = STATE_SHOW_CLOCK).
    { intros due s2 E.
      destruct (shouldStartNightlySync_shape u s1)
        as [E' | (due' & v & E' & Hv)]; rewrite E' in E;
        injection E as <- <-; [tauto|].
      unfold reference_inv, time_fields_inv, brightness_inv in *. setters.
      destruct H as ((R1 & R2 & R3) & T & B). specialize (R2 Hst).
      repeat split; try tauto; try lia; right; lia. }
    destruct (shouldStartNightlySync u s1) as [due s2].
    destruct (H2 due s2 eq_refl) as [H3 Hst2].
    apply superviseWiFi_keeps.
    destruct due; [|exact H3].
    unfold reference_inv, time_fields_inv, brightness_inv in *. setters.
    repeat split; try tauto; discriminate.
Qed.

Lemma reachable_invariants (s : State) :
  reachable s ->
  reference_inv s /\ time_fields_inv s /\ brightness_inv s.
Proof.
  induction 1 as [|i s _ IH]; [|now apply loop_keeps].
  unfold reference_inv, time_fields_inv, brightness_inv, initial_state,
    minBrightness, maxBrightness.
  setters. repeat split; try lia; discriminate.
Qed.

(** In every state the sketch can reach: either no reading was ever
    absorbed (reference and schedule both 0), or the reference is at or
    after the floor 1451606400 and the next resync lies after it.  While
    the clock is shown a reference is set, so [getCurrentRtcTime] runs
    on the reference and never hands back the raw system time, and a
    resync is scheduled. *)
Lemma reachable_reference (s : State) :
  reachable s ->
  (rtcBaseTime s = 0 /\ nextNtpSyncEpoch s = 0
   \/ TIME_FLOOR <= rtcBaseTime s < nextNtpSyncEpoch s)
  /\ (myState s = STATE_SHOW_CLOCK ->
      TIME_FLOOR <= rtcBaseTime s < nextNtpSyncEpoch s
      /\ forall sysTime ms,
           getCurrentRtcTime sysTime ms s
           = rtcBaseTime s + ulong_sub ms (rtcBaseMillis s) / 1000).
Proof.
  intros H. destruct (reachable_invariants s H) as ((R1 & R2 & _) & _).
  split; [exact R1|]. intros Hst. specialize (R2 Hst).
  unfold TIME_FLOOR in *.
  split; [lia|]. intros sysTime ms. unfold getCurrentRtcTime.
  destruct (Z.eqb_spec (rtcBaseTime s) 0); [lia | reflexivity].
Qed.

Lemma reachable_reference_witness :
  rtcBaseTime
    (loop (mkLoopInputs 9000 0 9000 1700000000 1700000000 9000 0 0 0 0
             true true)
       (loop (mkLoopInputs 300 0 300 0 0 0 0 0 0 0 true true) initial_state))
  = 0
  /\ nextNtpSyncEpoch
       (loop (mkLoopInputs 9000 0 9000 1700000000 1700000000 9000 0 0 0 0
                true true)
          (loop (mkLoopInputs 300 0 300 0 0 0 0 0 0 0 true true)
             initial_state))
     = 0
  \/ TIME_FLOOR
     <= rtcBaseTime
          (loop (mkLoopInputs 9000 0 9000 1700000000 1700000000 9000 0 0 0 0
                   true true)
             (loop (mkLoopInputs 300 0 300 0 0 0 0 0 0 0 true true)
                initial_state))
     < nextNtpSyncEpoch
         (loop (mkLoopInputs 9000 0 9000 1700000000 1700000000 9000 0 0 0 0
                  true true)
            (loop (mkLoopInputs 300 0 300 0 0 0 0 0 0 0 true true)
               initial_state)).
Proof.
  exact (proj1 (reachable_reference _
    (reachable_loop _ _ (reachable_loop _ _ reachable_init)))).
Defined.

(** Waiting for a reading is always bounded: in every reachable state
    that waits for NTP the sync-in-progress flag is set, so a pass whose
    [millis()] is more than 20000 ms (modulo 2^32) past the recorded
    start goes back to [STATE_WIFI_CONFIG]. *)
Lemma reachable_wait_bounded (i : LoopInputs) (s : State) :
  reachable s -> myState s = STATE_WAIT_FOR_TIME ->
  ntpSyncInProgress s = true
  /\ (ntpWaitTimeoutMs < ulong_sub (in_millis2 i) (ntpSyncStartMs s) ->
      myState (loop i s) = STATE_WIFI_CONFIG
      /\ ntpSyncInProgress (loop i s) = false).
Proof.
  intros H Hst. destruct (reachable_invariants s H) as ((_ & _ & R3) & _).
  specialize (R3 Hst). split; [exact R3|]. intros Hlate.
  assert (Hto : wait_timed_out (in_millis2 i) s = true).
  { unfold wait_timed_out. rewrite R3. cbn [andb].
    destruct (Z.gtb_spec (ulong_sub (in_millis2 i) (ntpSyncStartMs s))
                ntpWaitTimeoutMs); [reflexivity | lia]. }
  unfold loop.
  destruct (brightness_tick_frame (in_nowMs i) (in_ldr i) s) as (E1 & _).
  rewrite E1, Hst, wait_timed_out_brightness, Hto.
  split; reflexivity.
Qed.

Lemma reachable_wait_bounded_witness :
  myState
    (loop (mkLoopInputs 30000 0 30000 0 0 0 0 0 0 0 true true)
       (loop (mkLoopInputs 300 0 300 0 0 0 0 0 0 0 true true) initial_state))
  = STATE_WIFI_CONFIG.
Proof.
  refine (proj1 (proj2
    (reachable_wait_bounded
       (mkLoopInputs 30000 0 30000 0 0 0 0 0 0 0 true true)
       (loop (mkLoopInputs 300 0 300 0 0 0 0 0 0 0 true true) initial_state)
       (reachable_loop _ _ reachable_init) eq_refl) _)).
  reflexivity.
Defined.

(** In every reachable state the displayed time fields are a time of
    day and the brightness is within its configured range; so whatever
    the sketch renders reads back as exactly [t_hour]:[t_min]. *)
Lemma reachable_face (levelLin : Z) (tbl : list RGB) (s : State) (st : Strip) :
  reachable s -> length tbl = 24%nat -> length (pixels st) = 24%nat ->
  (0 <= t_hour s < 24 /\ 0 <= t_min s < 60 /\ 0 <= t_sec s < 60)
  /\ minBrightness <= currentBrightness s <= maxBrightness
  /\ shown_hour (renderBerlinClock levelLin (initColorDefines tbl) s st)
     = t_hour s
  /\ shown_minute (renderBerlinClock levelLin (initColorDefines tbl) s st)
     = t_min s
  /\ stripBrightness (renderBerlinClock levelLin (initColorDefines tbl) s st)
     = currentBrightness s.
Proof.
  intros H Ht Hs.
  destruct (reachable_invariants s H) as (_ & T & B).
  unfold time_fields_inv, brightness_inv in *.
  split; [exact T|]. split; [exact B|].
  destruct (renderBerlinClock_counts levelLin tbl s st Ht Hs) as [A1 A2];
    [lia | lia |].
  split; [exact A1|]. split; [exact A2|].
  destruct (renderBerlinClock_pixels levelLin (initColorDefines tbl) s st 0 Hs
              ltac:(unfold LED_COUNT; lia)) as (_ & -> & _).
  unfold to_uint8, minBrightness, maxBrightness in *.
  apply Z.mod_small. lia.
Qed.

Lemma reachable_face_witness :
  shown_hour
    (renderBerlinClock 0 (initColorDefines colorDefines_zero)
       (loop (mkLoopInputs 300 0 300 0 0 0 0 0 0 0 true true) initial_state)
       (mkStrip (repeat COLOR_WHITE 24) 0))
  = 0.
Proof.
  exact (proj1 (proj2 (proj2
    (reachable_face 0 colorDefines_zero
       (loop (mkLoopInputs 300 0 300 0 0 0 0 0 0 0 true true) initial_state)
       (mkStrip (repeat COLOR_WHITE 24) 0)
       (reachable_loop _ _ reachable_init) eq_refl eq_refl)))).
Defined.

(** The render block of the clock state, [updateTimeFromRtc()] then
    [renderBerlinClock()]: when the display time breaks down, the lamps
    read the hour and minute of day of the clock's UTC time shifted by
    the daylight-saving offset, and [t_sec] holds its second. *)
Lemma show_clock_render_shows_display_time (sysTime ms levelLin : Z)
    (tbl : list RGB) (s : State) (st : Strip) (d : tm) :
  length tbl = 24%nat -> length (pixels st) = 24%nat ->
  gmtime (getDisplayTime (getCurrentRtcTime sysTime ms s)) = Some d ->
  let disp := getDisplayTime (getCurrentRtcTime sysTime ms s) in
  let r := show_clock_render sysTime ms levelLin (initColorDefines tbl) s st in
  shown_hour (snd r) = (disp mod 86400) / 3600
  /\ shown_minute (snd r) = (disp mod 3600) / 60
  /\ t_sec (fst r) = disp mod 60
  /\ fst r = set_t_hms (tm_hour d) (tm_min d) (tm_sec d) s.
Proof.
  intros Ht Hs Hd disp r.
  destruct (gmtime_fields_range _ _ Hd) as ((Fs & Fm & Fh) & _ & Eh & Em & Es).
  fold disp in Eh, Em, Es.
  assert (Er : r = (set_t_hms (tm_hour d) (tm_min d) (tm_sec d) s,
                    renderBerlinClock levelLin (initColorDefines tbl)
                      (set_t_hms (tm_hour d) (tm_min d) (tm_sec d) s) st)).
  { unfold r, show_clock_render, updateTimeFromRtc. now rewrite Hd. }
  rewrite Er. cbn [fst snd].
  destruct (renderBerlinClock_counts levelLin tbl
              (set_t_hms (tm_hour d) (tm_min d) (tm_sec d) s) st Ht Hs)
    as [A1 A2]; [cbn [set_t_hms t_hour]; lia | cbn [set_t_hms t_min]; lia |].
  rewrite A1, A2. cbn [set_t_hms t_hour t_min t_sec].
  split; [exact Eh|]. split; [exact Em|]. split; [exact Es | reflexivity].
Qed.

Lemma show_clock_render_shows_display_time_witness :
  shown_hour
    (snd (show_clock_render 0 61000 128 (initColorDefines colorDefines_zero)
            (set_rtcBase 1729994700 1000 initial_state)
            (mkStrip (repeat BLACK 24) 0)))
  = 3.
Proof.
  refine (eq_trans (proj1
    (show_clock_render_shows_display_time 0 61000 128 colorDefines_zero
       (set_rtcBase 1729994700 1000 initial_state)
       (mkStrip (repeat BLACK 24) 0)
       (mkTm 0 6 3 27 9 124 0) eq_refl eq_refl _)) _).
  - vm_compute. reflexivity.
  - vm_compute. reflexivity.
Defined.

(* ================================================================== *)
(** * How far ahead the resync is scheduled *)

(** The scan returns no later than any matching candidate. *)
Lemma nightly_scan_first (n : nat) (startUtc c j1 : Z) :
  nightly_scan n 0 startUtc = Some c -> 0 <= j1 ->
  candidate_matches (startUtc + j1 * 60) = true ->
  c <= startUtc + j1 * 60.
Proof.
  intros E Hj Hm.
  destruct (nightly_scan_Some _ _ _ _ E) as (j & Hjr & Hc & _ & Hfirst).
  destruct (Z_lt_le_dec j1 j) as [Hlt|Hle]; [|lia].
  rewrite (Hfirst j1) in Hm by lia. discriminate.
Qed.

(** From a whole minute, the first match is less than 25 hours away. *)
Lemma first_match_within_25h (startUtc c : Z) :
  0 <= startUtc < CALENDAR_MAX + 60 -> startUtc mod 60 = 0 ->
  nightly_scan (Z.to_nat maxMinutes) 0 startUtc = Some c ->
  c <= startUtc + 89940.
Proof.
  intros Hs Hm E.
  pose proof (Z.div_mod startUtc 60 ltac:(lia)) as Hq. rewrite Hm in Hq.
  pose proof (Z.div_mod startUtc SECSPERDAY ltac:(discriminate)) as Hd.
  pose proof (Z.mod_pos_bound startUtc SECSPERDAY eq_refl) as Hr.
  assert (Hz0 : 0 <= startUtc / SECSPERDAY)
    by (apply Z.div_pos; [lia | reflexivity]).
  set (q := startUtc / 60) in *.
  set (D := startUtc / SECSPERDAY) in *.
  set (r := startUtc mod SECSPERDAY) in *.
  assert (Hbound : forall z off,
            off = 3900 \/ off = 7500 ->
            candidate_matches (z * SECSPERDAY + off) = true ->
            startUtc <= z * SECSPERDAY + off ->
            c <= z * SECSPERDAY + off).
  { intros z off Hoff M Hle.
    assert (Ej : z * SECSPERDAY + off
                 = startUtc + (1440 * z + off / 60 - q) * 60).
    { unfold SECSPERDAY in *. destruct Hoff as [-> | ->].
      - change (3900 / 60) with 65. lia.
      - change (7500 / 60) with 125. lia. }
    rewrite Ej in M |- *.
    apply (nightly_scan_first _ _ _ _ E); [|exact M].
    unfold SECSPERDAY in *. destruct Hoff as [-> | ->].
    - change (3900 / 60) with 65. lia.
    - change (7500 / 60) with 125. lia. }
  destruct (Z_le_gt_dec r 3900) as [Hearly | Hlate].
  - destruct (daily_match D) as [M | M].
    + exact Hz0.
    + unfold CALENDAR_MAX, SECSPERDAY in *. lia.
    + pose proof (Hbound D 3900 (or_introl eq_refl) M) as B.
      unfold SECSPERDAY in *. lia.
    + pose proof (Hbound D 7500 (or_intror eq_refl) M) as B.
      unfold SECSPERDAY in *. lia.
  - destruct (daily_match (D + 1)) as [M | M].
    + lia.
    + unfold CALENDAR_MAX, SECSPERDAY in *. lia.
    + pose proof (Hbound (D + 1) 3900 (or_introl eq_refl) M) as B.
      unfold SECSPERDAY in *. lia.
    + pose proof (Hbound (D + 1) 7500 (or_intror eq_refl) M) as B.
      unfold SECSPERDAY in *. lia.
Qed.

(** The next resync is never scheduled more than 25 hours ahead: for an
    instant from the epoch up to [CALENDAR_MAX], the stored instant lies
    after the argument and at most 90000 seconds after it. *)
Lemma scheduleNextNightlySync_within_25h (u : Z) (s : State) :
  0 <= u < CALENDAR_MAX ->
  u < nextNtpSyncEpoch (scheduleNextNightlySync u s) <= u + 25 * 3600.
Proof.
  intros Hu.
  destruct (nightly_scan_succeeds u Hu) as (c & Hc).
  assert (Hst : nextNtpSyncEpoch (scheduleNextNightlySync u s) = c).
  { unfold scheduleNextNightlySync. now rewrite Hc. }
  rewrite Hst.
  pose proof (next_full_minute_nonneg u ltac:(lia)) as Hn.
  pose proof (Z.div_mod u 60 ltac:(lia)) as Hdm.
  pose proof (Z.mod_pos_bound u 60 ltac:(lia)) as Hmb.
  pose proof (first_match_within_25h (next_full_minute u) c
                ltac:(lia) (next_full_minute_mod u) Hc) as Hb.
  destruct (nightly_scan_Some _ _ _ _ Hc) as (j & Hj & Hcj & _).
  lia.
Qed.

(** From 2024-10-26T01:05:00Z, the day before summer time ends, the
    bound is reached. *)
Lemma scheduleNextNightlySync_within_25h_witness :
  1729904700
  < nextNtpSyncEpoch (scheduleNextNightlySync 1729904700 initial_state)
  <= 1729904700 + 25 * 3600
  /\ nextNtpSyncEpoch (scheduleNextNightlySync 1729904700 initial_state)
     = 1729904700 + 25 * 3600.
Proof.
  split.
  - apply (scheduleNextNightlySync_within_25h 1729904700 initial_state).
    split; [lia | reflexivity].
  - vm_compute. reflexivity.
Defined.

(* ================================================================== *)
(** * [lastSunday] on every month *)

(** For every month, [lastSunday] counts 31 days from the first of the
    month, whatever the month's length, and steps back to a Sunday: the
    result is in 25..31, the day that far into the month is a Sunday,
    and it is the month's last Sunday when the month has 31 days. *)
Lemma lastSunday_any_month (y m : Z) :
  1 <= m <= 12 -> - 2 ^ 30 <= y <= 2 ^ 30 ->
  lastSunday y m = 31 - weekday (days_from_civil y m 1 + 30)
  /\ 25 <= lastSunday y m <= 31
  /\ weekday (days_from_civil y m 1 + (lastSunday y m - 1)) = 0
  /\ (days_in_month y m = 31 -> lastSunday y m = last_sunday_of y m).
Proof.
  intros Hm Hy.
  assert (E : lastSunday y m = 31 - weekday (days_from_civil y m 1 + 30)).
  { unfold lastSunday, mktime, time_of_tm.
    cbn [tm_year tm_mon tm_mday tm_hour tm_min tm_sec].
    replace ((m - 1) / 12) with 0 by zdiv.
    replace ((m - 1) mod 12 + 1) with m by zdiv.
    replace (y - 1900 + 1900 + 0) with y by ring.
    replace ((days_from_civil y m 1 + (31 - 1)) * SECSPERDAY
             + 12 * 3600 + 0 * 60 + 0)
      with ((days_from_civil y m 1 + 30) * SECSPERDAY + 43200) by ring.
    set (z := days_from_civil y m 1 + 30).
    destruct (day_second_split z 43200) as [Hd Hs];
      [unfold SECSPERDAY; lia|].
    destruct (civil_from_days z) as [[y' m'] d'] eqn:Hc.
    destruct (civil_from_days_spec _ _ _ _ Hc) as (_ & _ & _ & _ & Hy').
    rewrite <- Hd in Hc.
    rewrite gmtime_in_range; rewrite (tm_of_time_civil _ _ _ _ Hc);
      cbn [tm_year tm_wday]; [now rewrite Hd|].
    assert (Hz : 146097 * ((y - 1) / 400) - 719468 <= z
                 <= 146097 * (y / 400) + 146097 + 146097 - 719468 - 1).
    { unfold z, days_from_civil, doe_of_civil, DAYS_PER_ERA,
        EPOCH_ADJUSTMENT_DAYS.
      destruct (Z.leb_spec m 2); zdiv. }
    unfold INT_MIN, INT_MAX, EPOCH_ADJUSTMENT_DAYS, DAYS_PER_ERA in *.
    change (2 ^ 30) with 1073741824 in Hy.
    change (2 ^ 31) with 2147483648.
    clearbody z. zdiv. }
  split; [exact E|].
  pose proof (Z.mod_pos_bound (days_from_civil y m 1 + 30 + 4) 7 eq_refl) as Hw.
  rewrite E. unfold weekday in *.
  split; [lia|]. split; [zdiv|].
  intros H31. unfold last_sunday_of. rewrite H31, sunday_on_or_before_31.
  unfold sunday_from_31, weekday. rewrite <- (days_from_civil_day y m 31).
  reflexivity.
Qed.

Lemma lastSunday_any_month_witness :
  lastSunday 2022 4 = 31 /\ days_in_month 2022 4 = 30.
Proof.
  split; [|reflexivity].
  refine (eq_trans (proj1 (lastSunday_any_month 2022 4 _ _)) _).
  - lia.
  - split; [vm_compute; discriminate | vm_compute; discriminate].
  - reflexivity.
Defined.

(* ================================================================== *)
(** * A pass through the clock state *)

Lemma getCurrentRtcTime_base (sysTime ms : Z) (s s' : State) :
  rtcBaseTime s' = rtcBaseTime s -> rtcBaseMillis s' = rtcBaseMillis s ->
  getCurrentRtcTime sysTime ms s' = getCurrentRtcTime sysTime ms s.
Proof. unfold getCurrentRtcTime. now intros -> ->. Qed.

(** A pass of [loop()] re-reads the sensor exactly when 1000 ms or more
    (modulo 2^32) have gone by since the last reading, whatever the
    state; nothing else in the pass writes the brightness or the tick of
    its last reading. *)
Lemma loop_brightness (i : LoopInputs) (s : State) :
  (ulong_sub (in_nowMs i) (lastBrightnessMillis s) < brightnessIntervalMs ->
   currentBrightness (loop i s) = currentBrightness s
   /\ lastBrightnessMillis (loop i s) = lastBrightnessMillis s)
  /\ (brightnessIntervalMs <= ulong_sub (in_nowMs i) (lastBrightnessMillis s) ->
      currentBrightness (loop i s)
      = currentBrightness (updateBrightnessFromLdr (in_ldr i) s)
      /\ lastBrightnessMillis (loop i s) = in_nowMs i).
Proof.
  assert (F : currentBrightness (loop i s)
              = currentBrightness (brightness_tick (in_nowMs i) (in_ldr i) s)
              /\ lastBrightnessMillis (loop i s)
                 = lastBrightnessMillis
                     (brightness_tick (in_nowMs i) (in_ldr i) s)).
  { unfold loop. generalize (brightness_tick (in_nowMs i) (in_ldr i) s).
    intros s0. cbv zeta.
    assert (W : forall x, currentBrightness
                            (superviseWiFi (in_nowMs i) (in_wifiSup i) x)
                          = currentBrightness x
                          /\ lastBrightnessMillis
                               (superviseWiFi (in_nowMs i) (in_wifiSup i) x)
                             = lastBrightnessMillis x).
    { intros x.
      destruct (superviseWiFi_shape (in_nowMs i) (in_wifiSup i) x)
        as [(w & ->) | (_ & ->)]; split; reflexivity. }
    destruct (myState s0).
    - split; reflexivity.
    - destruct (wait_timed_out (in_millis2 i) s0); [split; reflexivity|].
      destruct (isTimeValid (in_timeValid i)); [|apply W].
      unfold syncRtcFromSystemTime.
      destruct (in_timeSync i <? TIME_FLOOR); [split; reflexivity|].
      destruct (scheduleNextNightlySync_shape (in_timeSync i)
                  (set_rtcBase (in_timeSync i) (in_millisSync i) s0))
        as (v & -> & _).
      destruct (W (set_myState STATE_SHOW_CLOCK
                     (set_ntpSyncInProgress false
                        (set_nextNtpSyncEpoch v
                           (set_rtcBase (in_timeSync i) (in_millisSync i)
                              s0))))) as [-> ->].
      split; reflexivity.
    - set (s1 := if ulong_sub (in_nowMs i) (lastRenderMillis s0)
                    >=? renderIntervalMs
                 then updateTimeFromRtc (in_timeRtc1 i) (in_millisRtc1 i)
                        (set_lastRenderMillis (in_nowMs i) s0)
                 else s0).
      assert (F1 : currentBrightness s1 = currentBrightness s0
                   /\ lastBrightnessMillis s1 = lastBrightnessMillis s0).
      { unfold s1. destruct (_ >=? _); [|split; reflexivity].
        destruct (updateTimeFromRtc_shape (in_timeRtc1 i) (in_millisRtc1 i)
                    (set_lastRenderMillis (in_nowMs i) s0))
          as [-> | (d & _ & ->)]; split; reflexivity. }
      destruct F1 as [<- <-]. clearbody s1.
      generalize (getCurrentRtcTime (in_timeRtc2 i) (in_millisRtc2 i) s1).
      intros u.
      destruct (shouldStartNightlySync_shape u s1)
        as [-> | (due & v & -> & _)].
      + apply W.
      + destruct due.
        * destruct (W (set_myState STATE_WAIT_FOR_TIME
                         (set_ntpSync true (in_millis2 i)
                            (set_nextNtpSyncEpoch v s1)))) as [-> ->].
          split; reflexivity.
        * destruct (W (set_nextNtpSyncEpoch v s1)) as [-> ->].
          split; reflexivity. }
  destruct F as [-> ->]. unfold brightness_tick, brightnessIntervalMs.
  split; intros H.
  - destruct (Z.geb_spec (ulong_sub (in_nowMs i) (lastBrightnessMillis s)) 1000);
      [lia | split; reflexivity].
  - destruct (Z.geb_spec (ulong_sub (in_nowMs i) (lastBrightnessMillis s)) 1000);
      [split; reflexivity | lia].
Qed.

Lemma loop_brightness_witness :
  currentBrightness
    (loop (mkLoopInputs 300 1023 300 0 0 0 0 0 0 0 true true) initial_state)
  = currentBrightness initial_state.
Proof.
  refine (proj1 (proj1
    (loop_brightness (mkLoopInputs 300 1023 300 0 0 0 0 0 0 0 true true)
       initial_state) _)).
  vm_compute. reflexivity.
Defined.

(** A pass through [STATE_SHOW_CLOCK] with a schedule set and WiFi
    connected: before the scheduled instant the state and the schedule
    stay as they are; from the scheduled instant on the pass moves to
    [STATE_WAIT_FOR_TIME], marks a sync in progress with its start tick,
    and has already scheduled the resync after this one, later than the
    clock's present time. *)
Lemma loop_show_clock_resync (i : LoopInputs) (s : State) :
  myState s = STATE_SHOW_CLOCK -> nextNtpSyncEpoch s <> 0 ->
  in_wifiSup i = true ->
  let u := getCurrentRtcTime (in_timeRtc2 i) (in_millisRtc2 i) s in
  (u < nextNtpSyncEpoch s ->
   myState (loop i s) = STATE_SHOW_CLOCK
   /\ nextNtpSyncEpoch (loop i s) = nextNtpSyncEpoch s
   /\ ntpSyncInProgress (loop i s) = ntpSyncInProgress s)
  /\ (nextNtpSyncEpoch s <= u ->
      myState (loop i s) = STATE_WAIT_FOR_TIME
      /\ ntpSyncInProgress (loop i s) = true
      /\ ntpSyncStartMs (loop i s) = in_millis2 i
      /\ nextNtpSyncEpoch (loop i s)
         = nextNtpSyncEpoch (scheduleNextNightlySync u s)
      /\ u < nextNtpSyncEpoch (loop i s)).
Proof.
  intros Hst Hne Hwifi u. unfold loop. rewrite Hwifi.
  assert (H0 : exists s0, brightness_tick (in_nowMs i) (in_ldr i) s = s0
               /\ myState s0 = STATE_SHOW_CLOCK
               /\ nextNtpSyncEpoch s0 = nextNtpSyncEpoch s
               /\ ntpSyncInProgress s0 = ntpSyncInProgress s
               /\ rtcBaseTime s0 = rtcBaseTime s
               /\ rtcBaseMillis s0 = rtcBaseMillis s).
  { eexists. split; [reflexivity|].
    destruct (brightness_tick_shape (in_nowMs i) (in_ldr i) s)
      as [-> | (v & -> & _)]; setters; auto. }
  destruct H0 as (s0 & -> & Hst0 & N0 & P0 & B0 & M0).
  cbv zeta. rewrite Hst0.
  set (s1 := if ulong_sub (in_nowMs i) (lastRenderMillis s0) >=? renderIntervalMs
             then updateTimeFromRtc (in_timeRtc1 i) (in_millisRtc1 i)
                    (set_lastRenderMillis (in_nowMs i) s0)
             else s0).
  assert (H1 : myState s1 = STATE_SHOW_CLOCK
               /\ nextNtpSyncEpoch s1 = nextNtpSyncEpoch s
               /\ ntpSyncInProgress s1 = ntpSyncInProgress s
               /\ rtcBaseTime s1 = rtcBaseTime s
               /\ rtcBaseMillis s1 = rtcBaseMillis s).
  { unfold s1. destruct (_ >=? _); [|auto].
    destruct (updateTimeFromRtc_shape (in_timeRtc1 i) (in_millisRtc1 i)
                (set_lastRenderMillis (in_nowMs i) s0))
      as [-> | (d & _ & ->)]; setters; auto. }
  clearbody s1. destruct H1 as (Hst1 & N1 & P1 & B1 & M1).
  rewrite (getCurrentRtcTime_base _ _ s s1 B1 M1). fold u.
  clearbody u.
  assert (W : forall x, superviseWiFi (in_nowMs i) true x
                        = set_wifiLostSinceMs 0 x) by reflexivity.
  unfold shouldStartNightlySync. rewrite N1.
  destruct (Z.eqb_spec (nextNtpSyncEpoch s) 0) as [|_]; [contradiction|].
  destruct (Z.ltb_spec u (nextNtpSyncEpoch s)) as [Hlt | Hge].
  - split; [intros _ | lia]. rewrite W. setters. auto.
  - split; [lia | intros _].
    destruct (scheduleNextNightlySync_shape u s1) as (v & E & Hv).
    pose proof (scheduleNextNightlySync_value u s1 s) as Ev.
    rewrite E in Ev |- *. rewrite W. setters.
    split; [reflexivity|]. split; [reflexivity|]. split; [reflexivity|].
    split; [exact Ev | exact Hv].
Qed.

Lemma loop_show_clock_resync_witness :
  myState
    (loop (mkLoopInputs 300 0 4000 0 0 0 0 0 0 2000 true true)
       (set_nextNtpSyncEpoch 1700000001
          (set_rtcBase 1700000000 0
             (set_myState STATE_SHOW_CLOCK initial_state))))
  = STATE_WAIT_FOR_TIME.
Proof.
  refine (proj1 (proj2
    (loop_show_clock_resync
       (mkLoopInputs 300 0 4000 0 0 0 0 0 0 2000 true true)
       (set_nextNtpSyncEpoch 1700000001
          (set_rtcBase 1700000000 0
             (set_myState STATE_SHOW_CLOCK initial_state)))
       eq_refl _ eq_refl) _)).
  - discriminate.
  - vm_compute. discriminate.
Defined.
